(** * Zip ingestion function, error formatter and describer cache

    A shallow embedding of three parts of the repository:

    - [app/backend/error.py]: [error_dict];
    - [app/functions/zip_processor/function_app.py]: [process_zip_job] and
      the blob trigger [zip_processor];
    - the describer cache of [prepdocslib.figureprocessor.FigureProcessor],
      whose code is exercised by [tests/test_pdfparser.py].

    Python [str] values are [string]s, one [ascii] per character; the
    methods that compare characters ([replace], [split], [strip], ...) are
    defined, and [str.lower], which needs Python's table of cased
    characters, is a parameter. [dict]s with string keys are
    [gmap string _], the [set] of supported extensions is a [gset string],
    [int]s are [Z]. *)

From Stdlib Require Import ZArith Lia Ascii String List.
From stdpp Require Import base option list strings gmap pretty.

Local Open Scope Z_scope.

(** ** Python string methods used by the sources *)

Module PyStr.

Definition nl : string := String "010"%char EmptyString.

(** [s.replace(c, by)] for a one-character pattern [c]. *)
Fixpoint replace (c : ascii) (by_ : string) (s : string) : string :=
  match s with
  | EmptyString => EmptyString
  | String a r =>
      if Ascii.eqb a c then by_ +:+ replace c by_ r
      else String a (replace c by_ r)
  end.

(** [s.lstrip(c)]: every leading [c] is removed. *)
Fixpoint lstrip (c : ascii) (s : string) : string :=
  match s with
  | EmptyString => EmptyString
  | String a r => if Ascii.eqb a c then lstrip c r else s
  end.

(** [s.rstrip(c)]: every trailing [c] is removed. *)
Fixpoint rstrip (c : ascii) (s : string) : string :=
  match s with
  | EmptyString => EmptyString
  | String a r =>
      match rstrip c r with
      | EmptyString => if Ascii.eqb a c then EmptyString else String a EmptyString
      | r' => String a r'
      end
  end.

(** [s.strip(c)]. *)
Definition strip (c : ascii) (s : string) : string := rstrip c (lstrip c s).

(** [s.split(c)]: the fields between the occurrences of [c], empty fields
    included; never the empty list. *)
Fixpoint split (c : ascii) (s : string) : list string :=
  match s with
  | EmptyString => [EmptyString]
  | String a r =>
      if Ascii.eqb a c then EmptyString :: split c r
      else match split c r with
           | h :: t => String a h :: t
           | [] => [String a EmptyString]
           end
  end.

(** [c in s] for a one-character [c]. *)
Fixpoint contains (c : ascii) (s : string) : bool :=
  match s with
  | EmptyString => false
  | String a r => Ascii.eqb a c || contains c r
  end.

(** The part of [s] before its last [c], if [c] occurs. *)
Fixpoint before_last (c : ascii) (s : string) : option string :=
  match s with
  | EmptyString => None
  | String a r =>
      match before_last c r with
      | Some h => Some (String a h)
      | None => if Ascii.eqb a c then Some EmptyString else None
      end
  end.

(** [s.rsplit(c, 1)[0]]. *)
Definition rsplit1_head (c : ascii) (s : string) : string :=
  default s (before_last c s).

(** [s.endswith(suffix)]. *)
Definition endswith (s suffix : string) : bool :=
  let n := String.length s in
  let k := String.length suffix in
  (k <=? n)%nat && String.eqb (substring (n - k) k s) suffix.

Definition lower_ascii (a : ascii) : ascii :=
  let n := nat_of_ascii a in
  if ((65 <=? n) && (n <=? 90))%nat then ascii_of_nat (n + 32) else a.

(** [s.lower()]. Python lower-cases every cased character of Unicode, by
    a table that is not part of the sources: the method is a parameter, of
    which only [str().lower() == str()] is known here. *)
Record Lower := {
  lower : string -> string;
  lower_empty : lower EmptyString = EmptyString }.

(** [s.lower()] for a text whose only cased characters are the ASCII
    letters, as the examples below use. *)
Fixpoint ascii_lower (s : string) : string :=
  match s with
  | EmptyString => EmptyString
  | String a r => String (lower_ascii a) (ascii_lower r)
  end.

Definition ascii_lowering : Lower :=
  {| lower := ascii_lower; lower_empty := eq_refl |}.

(** [s.rfind(c)] with the index of the first character given by [i];
    [-1] when [c] does not occur. *)
Fixpoint rfind_from (c : ascii) (s : string) (i : Z) : Z :=
  match s with
  | EmptyString => -1
  | String a r =>
      let k := rfind_from c r (i + 1) in
      if 0 <=? k then k else if Ascii.eqb a c then i else -1
  end.

Definition rfind (c : ascii) (s : string) : Z := rfind_from c s 0.

(** [s[i:j]] for [0 <= i]. *)
Definition slice (s : string) (i j : Z) : string :=
  substring (Z.to_nat i) (Z.to_nat (j - i)) s.

(** [s[i:]] for [0 <= i]. *)
Definition slice_from (s : string) (i : Z) : string :=
  substring (Z.to_nat i) (String.length s - Z.to_nat i) s.

(** [os.path.splitext(p)[1]] ([genericpath._splitext] with separator
    [/] and extension separator [.]): the extension starts at the last
    dot, provided that dot comes after the last separator and some
    character between the two is not a dot. *)
Definition splitext_ext (p : string) : string :=
  let sepIndex := rfind "/" p in
  let dotIndex := rfind "." p in
  if sepIndex <? dotIndex then
    if forallb (fun a => Ascii.eqb a ".")
         (list_ascii_of_string (slice p (sepIndex + 1) dotIndex))
    then EmptyString
    else slice_from p dotIndex
  else EmptyString.

End PyStr.

(** ** Python values shared by the modules below *)

Module Py.

Abbreviation bytes := (list Byte.byte).

(** [len(l)]. *)
Definition len {A : Type} (l : list A) : Z := Z.of_nat (length l).

(** An instance of [Exception], the kind an [except Exception] clause
    catches: its class name and [str(e)]. *)
Record exn := Exn { exn_class : string; exn_msg : string }.

Definition ValueError (msg : string) : exn := Exn "ValueError" msg.
Definition TypeError (msg : string) : exn := Exn "TypeError" msg.
Definition AttributeError (msg : string) : exn := Exn "AttributeError" msg.

(** What a call does: return a value or raise. *)
Inductive outcome (A : Type) :=
| Returned (a : A)
| Raised (e : exn).
#[global] Arguments Returned {A} a.
#[global] Arguments Raised {A} e.

End Py.

(** ** [app/backend/error.py] *)

Module Error.
Import PyStr.

(** A class as [type(error)] gives it: [__module__] and [__name__]
    (top-level classes, so [__qualname__] is [__name__]). *)
Record PyClass := { cls_module : string; cls_name : string }.

(** [str(cls)], which is what [str.format] inserts for a class. *)
Definition class_str (c : PyClass) : string :=
  "<class '" +:+
    (if String.eqb (cls_module c) "builtins" then cls_name c
     else cls_module c +:+ "." +:+ cls_name c) +:+ "'>".

(** [error.response]: its truth value [bool(error.response)], which the
    class of the response decides, and its [status_code] as
    [getattr(_, "status_code", None)] reads it. *)
Record Response := { response_truthy : bool; status_code : option Z }.

(** The exceptions [error_dict] tells apart with [isinstance]: instances
    of [openai.APIError] and their [code]; instances of
    [azure.core.exceptions.HttpResponseError] with their [message]
    attribute, [str(error)] and [response]; every other exception. *)
Inductive Exception :=
| APIError (cls : PyClass) (code : option string)
| HttpResponseError (cls : PyClass) (message : option string)
    (str_error : string) (response : option Response)
| OtherException (cls : PyClass).

Definition type_of (error : Exception) : PyClass :=
  match error with
  | APIError cls _ | HttpResponseError cls _ _ _ | OtherException cls => cls
  end.

Definition ERROR_MESSAGE (error_type : string) : string :=
  "The app encountered an error processing your request." +:+ nl +:+
  "If you are an administrator of the app, check the application logs for a full traceback."
    +:+ nl +:+
  "Error type: " +:+ error_type +:+ nl.

Definition ERROR_MESSAGE_FILTER : string :=
  "Your message contains content that was flagged by the OpenAI content filter.".

Definition ERROR_MESSAGE_LENGTH : string :=
  "Your message exceeded the context length limit for this OpenAI model. Please shorten your message or change your settings to retrieve fewer search results.".

Definition ERROR_MESSAGE_AZURE (message error_type : string) : string :=
  "Azure service error: " +:+ message +:+ nl +:+
  "If indexing is in progress, try again in a minute. Error type: " +:+ error_type.

(** [error.code == c] for an [APIError]. *)
Definition code_is (code : option string) (c : string) : bool :=
  match code with Some c' => String.eqb c' c | None => false end.

(** [getattr(error, "message", None) or str(error)]. *)
Definition message_or_str (message : option string) (str_error : string) : string :=
  match message with
  | Some m => if String.eqb m EmptyString then str_error else m
  | None => str_error
  end.

(** [getattr(error.response, "status_code", None) if
    getattr(error, "response", None) else None]. *)
Definition status_of (response : option Response) : option Z :=
  match response with
  | Some r => if response_truthy r then status_code r else None
  | None => None
  end.

(** The test [if status:]: an [int] is true when it is not [0]. *)
Definition status_truthy (status : option Z) : bool :=
  match status with
  | Some s => negb (s =? 0)
  | None => false
  end.

Definition is_APIError (error : Exception) : bool :=
  match error with APIError _ _ => true | _ => false end.

Definition is_HttpResponseError (error : Exception) : bool :=
  match error with HttpResponseError _ _ _ _ => true | _ => false end.

(** [error.code], read only behind [isinstance(error, APIError)]. *)
Definition code_of (error : Exception) : option string :=
  match error with APIError _ code => code | _ => None end.

Definition message_of (error : Exception) : option string :=
  match error with HttpResponseError _ message _ _ => message | _ => None end.

Definition str_of (error : Exception) : string :=
  match error with HttpResponseError _ _ s _ => s | _ => EmptyString end.

Definition response_of (error : Exception) : option Response :=
  match error with HttpResponseError _ _ _ response => response | _ => None end.

Definition error_dict (error : Exception) : gmap string string :=
  if is_APIError error && code_is (code_of error) "content_filter" then
    {[ "error" := ERROR_MESSAGE_FILTER ]}
  else if is_APIError error && code_is (code_of error) "context_length_exceeded" then
    {[ "error" := ERROR_MESSAGE_LENGTH ]}
  else if is_HttpResponseError error then
    let msg := message_or_str (message_of error) (str_of error) in
    let status := status_of (response_of error) in
    let msg :=
      if status_truthy status
      then "[HTTP " +:+ pretty (default 0 status) +:+ "] " +:+ msg
      else msg in
    {[ "error" := ERROR_MESSAGE_AZURE msg (cls_name (type_of error)) ]}
  else
    {[ "error" := ERROR_MESSAGE (class_str (type_of error)) ]}.

End Error.

(** ** [app/functions/zip_processor/function_app.py] *)

Module ZipProcessor.
Import PyStr Py.

Definition MAX_ZIP_SIZE_BYTES : Z := 50 * 1024 * 1024.
Definition MAX_ZIP_FILE_COUNT : Z := 30000.

(** *** Values

    What [json.loads] returns. A [float] is kept only up to whether it is
    zero, which is all its truth value depends on; [None] is [JNull]. *)
#[local] Unset Elimination Schemes.
Inductive json :=
| JNull
| JBool (b : bool)
| JInt (n : Z)
| JFloat (nonzero : bool)
| JStr (s : string)
| JArr (l : list json)
| JObj (m : gmap string json).
#[local] Set Elimination Schemes.

(** [bool(v)]. *)
Definition truthy (v : json) : bool :=
  match v with
  | JNull => false
  | JBool b => b
  | JInt n => negb (n =? 0)
  | JFloat nonzero => nonzero
  | JStr s => negb (String.eqb s EmptyString)
  | JArr l => match l with [] => false | _ => true end
  | JObj m => negb (bool_decide (m = ∅))
  end.

(** [type(v).__name__]. *)
Definition type_name (v : json) : string :=
  match v with
  | JNull => "NoneType"
  | JBool _ => "bool"
  | JInt _ => "int"
  | JFloat _ => "float"
  | JStr _ => "str"
  | JArr _ => "list"
  | JObj _ => "dict"
  end.

(** *** Data passed to the collaborators *)

(** The keyword arguments of one [upload_session_progress] call, with
    [indexed_ids] as the list is at the time of the call. *)
Record Snapshot := {
  snap_upload_id : string;
  status : string;
  files_total : Z;
  files_done : Z;
  indexed_ids : list string;
  snap_user_oid : json }.

(** [io.BytesIO(raw)] with its [name] attribute set; the position in the
    stream, which [content.seek(0)] resets, is left out. *)
Record BytesIO := { getvalue : bytes; bio_name : string }.

(** [prepdocslib.listfilestrategy.File], as constructed here. *)
Record File := {
  content : BytesIO;
  url : string;
  acls : gmap string (list json);
  source_path : string }.

(** An open [zipfile.ZipFile]: [namelist()] and [read(name)]. *)
Record ZipArchive := {
  namelist : list string;
  zip_read : string -> outcome bytes }.

(** [func.InputStream]: [name] and [read()]. *)
Record InputStream := {
  blob_name : string;
  blob_read : outcome bytes }.

(** *** Logging *)

Inductive LogLevel := INFO | ERROR | EXCEPTION.

Inductive LogArg :=
| ArgStr (s : string)
| ArgVal (v : json)
| ArgInt (n : Z)
| ArgExn (e : exn).

(** One call of [logger.info], [logger.error] or [logger.exception]:
    the format string and its arguments. *)
Record LogRecord := {
  log_level : LogLevel;
  log_fmt : string;
  log_args : list LogArg }.

(** *** Collaborators

    The collaborators live outside this file. Each is a function of the
    state [W] of the outside world, returning or raising. *)
Section Collaborators.
Context {W : Type}.

Definition action (A : Type) : Type := W -> outcome A * W.

(** [prepdocslib.blobmanager.AdlsBlobManager]. *)
Record AdlsBlobManager := {
  get_session_chunks : string -> action (option bytes);
  upload_blob : BytesIO -> string -> json -> action string;
  upload_session_progress : Snapshot -> action unit;
  delete_session : string -> bool -> action unit }.

(** A registered file processor; only its key is used here. *)
Record FileProcessor := { processor_name : string }.

(** [prepdocslib.filestrategy.UploadUserFileStrategy]. *)
Record UploadUserFileStrategy := {
  file_processors : gmap string FileProcessor;
  add_file : File -> json -> action unit }.

(** The dict [get_settings()] returns. *)
Record Settings := {
  adls_manager : AdlsBlobManager;
  ingester : UploadUserFileStrategy }.

(** What the module takes from its environment and from the Python
    library: [get_settings], [zipfile.ZipFile(io.BytesIO(data), "r")],
    [bytes.decode("utf-8")], [json.loads] and [str.lower]. *)
Record Runtime := {
  get_settings : action Settings;
  ZipFile : bytes -> outcome ZipArchive;
  decode_utf8 : bytes -> outcome string;
  json_loads : string -> outcome json;
  str_lower : Lower }.

(** *** The monad of the module's code

    State: the outside world, the [upload_session_progress] calls made
    so far (oldest first) and the log records emitted so far. *)
Record St := {
  world : W;
  progress_calls : list Snapshot;
  log : list LogRecord }.

Definition M (A : Type) : Type := St -> outcome A * St.

Definition ret {A} (a : A) : M A := fun st => (Returned a, st).

Definition raise {A} (e : exn) : M A := fun st => (Raised e, st).

Definition bind {A B} (m : M A) (k : A -> M B) : M B :=
  fun st =>
    match m st with
    | (Returned a, st') => k a st'
    | (Raised e, st') => (Raised e, st')
    end.

(** [try: body except Exception as e: handler(e)]. *)
Definition try_except {A} (body : M A) (handler : exn -> M A) : M A :=
  fun st =>
    match body st with
    | (Returned a, st') => (Returned a, st')
    | (Raised e, st') => handler e st'
    end.

(** A value or exception of a pure library call. *)
Definition lift {A} (o : outcome A) : M A := fun st => (o, st).

(** A call of a collaborator. *)
Definition call {A} (f : action A) : M A :=
  fun st =>
    let '(o, w) := f (world st) in
    (o, {| world := w; progress_calls := progress_calls st; log := log st |}).

Definition emit (lvl : LogLevel) (fmt : string) (args : list LogArg) : M unit :=
  fun st =>
    (Returned tt,
     {| world := world st; progress_calls := progress_calls st;
        log := log st ++ [{| log_level := lvl; log_fmt := fmt; log_args := args |}] |}).

(** [await adls_manager.upload_session_progress(...)]: the call is
    recorded, then made. *)
Definition progress (adls : AdlsBlobManager) (snap : Snapshot) : M unit :=
  fun st =>
    call (upload_session_progress adls snap)
      {| world := world st; progress_calls := progress_calls st ++ [snap];
         log := log st |}.

End Collaborators.

Arguments action : clear implicits.
Arguments AdlsBlobManager : clear implicits.
Arguments UploadUserFileStrategy : clear implicits.
Arguments Settings : clear implicits.
Arguments Runtime : clear implicits.
Arguments St : clear implicits.
Arguments M : clear implicits.

(** [x ← m; k] and [m;; k] are stdpp's notations for [bind]. *)
#[export] Instance M_ret {W} : MRet (M W) := fun A a => ret a.
#[export] Instance M_bind {W} : MBind (M W) := fun A B k m => bind m k.

(** *** [process_zip_job] *)
Section Job.
Context {W : Type} (rt : Runtime W).

(** [not data] for what [get_session_chunks] returned: [None] or empty [bytes]. *)
Definition no_data (data : option bytes) : bool :=
  match data with
  | None | Some [] => true
  | Some (_ :: _) => false
  end.

(** ["." in filename], by the type [filename] has at run time. *)
Definition contains_dot (filename : json) : outcome bool :=
  match filename with
  | JStr s => Returned (contains "." s)
  | JArr l =>
      Returned (existsb (fun v => match v with JStr s => String.eqb s "." | _ => false end) l)
  | JObj m => Returned (bool_decide (is_Some (m !! ".")))
  | v => Raised (TypeError ("argument of type '" +:+ type_name v +:+ "' is not iterable"))
  end.

(** [filename.rsplit(".", 1)[0]]. *)
Definition rsplit_dot_head (filename : json) : outcome string :=
  match filename with
  | JStr s => Returned (rsplit1_head "." s)
  | v => Raised (AttributeError ("'" +:+ type_name v +:+ "' object has no attribute 'rsplit'"))
  end.

(** [filename.rsplit(".", 1)[0] if "." in filename else "archive"]. *)
Definition zip_basename_of (filename : json) : M W string :=
  has_dot ← lift (contains_dot filename);
  if has_dot : bool then lift (rsplit_dot_head filename) else mret "archive".

(** [name.replace("\\", "/").lstrip("/")]. *)
Definition rel_path_of (name : string) : string :=
  lstrip "/" (replace "\" "/" name).

(** [f"{zip_basename}__{rel_path.replace('/', '__')}"]. *)
Definition flattened_key (zip_basename rel_path : string) : string :=
  zip_basename +:+ "__" +:+ replace "/" "__" rel_path.

(** [[m for m in zf.namelist() if not m.endswith("/")]]. *)
Definition members_of (zf : ZipArchive) : list string :=
  List.filter (fun m => negb (endswith m "/")) (namelist zf).

(** The comprehension building [to_process]. *)
Definition to_process_of (low : Lower) (supported_extensions : gset string)
    (zip_basename : string) (members : list string)
  : list (string * string * string) :=
  omap (fun name =>
          let rel_path := rel_path_of name in
          let ext := lower low (splitext_ext rel_path) in
          if bool_decide (ext ∈ supported_extensions)
          then Some (name, rel_path, flattened_key zip_basename rel_path)
          else None)
       members.

Section PerFile.
Context (adls : AdlsBlobManager W) (ing : UploadUserFileStrategy W)
  (zf : ZipArchive) (upload_id : string) (user_oid : json) (total : Z).

(** Lines 186-200 of the [try] block: read the member, upload it,
    hand it to [add_file]. *)
Definition ingest_entry (entry : string * string * string) : M W unit :=
  let '(name, rel_path, flattened) := entry in
  raw ← lift (zip_read zf name);
  let content := {| getvalue := raw; bio_name := flattened |} in
  file_url ← call (upload_blob adls content flattened user_oid);
  call (add_file ing
          {| content := content; url := file_url;
             acls := {[ "oids" := [user_oid] ]}; source_path := rel_path |}
          user_oid).

(** Lines 203-211 of the [try] block: push the snapshot, log. *)
Definition report_entry (ids : list string) (done : Z) (rel_path : string)
  : M W unit :=
  progress adls
    {| snap_upload_id := upload_id; status := "processing";
       files_total := total; files_done := done;
       indexed_ids := ids; snap_user_oid := user_oid |};;
  emit INFO "Indexed %s (%d/%d)" [ArgStr rel_path; ArgInt done; ArgInt total].

(** The [except Exception as e] clause; the locals stay as they are
    when the exception arrives. *)
Definition on_error (rel_path : string) (locals : list string * Z) (e : exn)
  : M W (list string * Z) :=
  emit EXCEPTION "Error processing %s from zip: %s" [ArgStr rel_path; ArgExn e];;
  mret locals.

(** One turn of the [for] loop, with the locals [indexed_ids] and
    [files_done] threaded through. The inner [try_except] is the rest
    of the same [try] block once [indexed_ids.append(flattened)] and
    [files_done += 1] have run: same handler, updated locals. *)
Definition process_entry (locals : list string * Z)
    (entry : string * string * string) : M W (list string * Z) :=
  let '(ids, done) := locals in
  let '(_, rel_path, flattened) := entry in
  try_except
    (ingest_entry entry;;
     let ids := ids ++ [flattened] in
     let done := done + 1 in
     try_except
       (report_entry ids done rel_path;; mret (ids, done))
       (on_error rel_path (ids, done)))
    (on_error rel_path (ids, done)).

(** [for entry in to_process: ...]. *)
Fixpoint for_each (locals : list string * Z)
    (to_process : list (string * string * string)) : M W (list string * Z) :=
  match to_process with
  | [] => mret locals
  | entry :: rest => locals' ← process_entry locals entry; for_each locals' rest
  end.

(** Lines 171-222: the first snapshot, the loop, the final snapshot. *)
Definition process_entries (to_process : list (string * string * string))
  : M W unit :=
  progress adls
    {| snap_upload_id := upload_id; status := "processing";
       files_total := total; files_done := 0;
       indexed_ids := []; snap_user_oid := user_oid |};;
  '(ids, done) ← for_each ([], 0) to_process;
  progress adls
    {| snap_upload_id := upload_id; status := "completed";
       files_total := total; files_done := done;
       indexed_ids := ids; snap_user_oid := user_oid |}.

(** How one turn of the loop goes when started in state [st]: the
    entry is indexed and reported; or [ingest_entry] (the chunk read,
    the blob upload or [add_file]) raises; or the entry is indexed
    and pushing its snapshot raises. *)
Inductive entry_outcome :=
| Indexed
| Failed (e : exn)
| ReportFailed (e : exn).

Definition outcome_of_entry (locals : list string * Z)
    (entry : string * string * string) (st : St W) : entry_outcome :=
  let '(ids, done) := locals in
  let '(_, rel_path, flattened) := entry in
  match ingest_entry entry st with
  | (Raised e, _) => Failed e
  | (Returned _, st1) =>
      match report_entry (ids ++ [flattened]) (done + 1) rel_path st1 with
      | (Raised e, _) => ReportFailed e
      | (Returned _, _) => Indexed
      end
  end.

(** The outcomes of the turns of the loop, in order. *)
Fixpoint outcomes (locals : list string * Z)
    (to_process : list (string * string * string)) (st : St W)
  : list entry_outcome :=
  match to_process with
  | [] => []
  | entry :: rest =>
      outcome_of_entry locals entry st ::
      match process_entry locals entry st with
      | (Returned locals', st') => outcomes locals' rest st'
      | (Raised _, _) => []
      end
  end.

End PerFile.

(** Lines 144-170: fetch the chunks, check the limits, open the archive
    and select the entries to process. *)
Definition select_entries (upload_id : string) (filename : json)
  : M W (Settings W * ZipArchive * list (string * string * string)) :=
  settings ← call (get_settings rt);
  let adls := adls_manager settings in
  let ing := ingester settings in
  data ← call (get_session_chunks adls upload_id);
  if no_data data then
    raise (ValueError ("No chunks found for session " +:+ upload_id))
  else
  let data := default [] data in
  if MAX_ZIP_SIZE_BYTES <? len data then
    raise (ValueError ("Zip exceeds " +:+
                        pretty (MAX_ZIP_SIZE_BYTES `div` (1024 * 1024)) +:+ " MB limit"))
  else
  zip_basename ← zip_basename_of filename;
  let supported_extensions := dom (file_processors ing) in
  zf ← lift (ZipFile rt data);
  let members := members_of zf in
  if MAX_ZIP_FILE_COUNT <? len members then
    raise (ValueError ("Zip contains too many files (max " +:+
                        pretty MAX_ZIP_FILE_COUNT +:+ ")"))
  else
  mret (settings, zf,
        to_process_of (str_lower rt) supported_extensions zip_basename members).

Definition process_zip_job (upload_id : string) (filename user_oid : json)
  : M W unit :=
  '(settings, zf, to_process) ← select_entries upload_id filename;
  let adls := adls_manager settings in
  let ing := ingester settings in
  process_entries adls ing zf upload_id user_oid (len to_process) to_process;;
  call (delete_session adls upload_id true).

(** *** [zip_processor] *)

(** [blob.name.replace("\\", "/").strip("/").split("/")]. *)
Definition parts_of (name : string) : list string :=
  split "/" (strip "/" (replace "\" "/" name)).

(** [parts[-2] if len(parts) >= 2 else (parts[0] if parts else "unknown")]. *)
Definition upload_id_of (parts : list string) : string :=
  if 2 <=? len parts then default EmptyString (parts !! (length parts - 2)%nat)
  else match parts with
       | p :: _ => p
       | [] => "unknown"
       end.

(** [job.get(key)]: only a [dict] has [get]. *)
Definition job_get (job : json) (key : string) : outcome json :=
  match job with
  | JObj m => Returned (default JNull (m !! key))
  | v => Raised (AttributeError ("'" +:+ type_name v +:+ "' object has no attribute 'get'"))
  end.

Definition zip_processor (blob : InputStream) : M W unit :=
  let parts := parts_of (blob_name blob) in
  let upload_id := upload_id_of parts in
  parsed ← try_except
             (raw ← lift (blob_read blob);
              text ← lift (decode_utf8 rt raw);
              job ← lift (json_loads rt text);
              mret (Some job))
             (fun e =>
                emit EXCEPTION "Invalid _job.json for %s: %s" [ArgStr upload_id; ArgExn e];;
                mret None);
  match parsed with
  | None => mret tt
  | Some job =>
      filename ← lift (job_get job "filename");
      user_oid ← lift (job_get job "user_oid");
      if negb (truthy filename) || negb (truthy user_oid) then
        emit ERROR "Missing filename or user_oid in _job.json for %s" [ArgStr upload_id]
      else
        emit INFO "Processing zip job %s for user %s" [ArgStr upload_id; ArgVal user_oid];;
        try_except
          (process_zip_job upload_id filename user_oid;;
           emit INFO "Completed zip job %s" [ArgStr upload_id])
          (fun e =>
             emit EXCEPTION "Failed zip job %s: %s" [ArgStr upload_id; ArgExn e];;
             raise e)
  end.

End Job.

(** A run from a fresh state: nothing logged, no progress call made. *)
Definition initial {W : Type} (w : W) : St W :=
  {| world := w; progress_calls := []; log := [] |}.

End ZipProcessor.

(** ** The describer cache of [prepdocslib.figureprocessor.FigureProcessor] *)

Module FigureProcessor.
Import Py.

(** Modelled from the spec: the strategy variants of section 4.5, and
    any other value as [Unrecognized]; the enumeration is declared in
    [prepdocslib.figureprocessor], which is not among the sources. *)
Inductive MediaDescriptionStrategy :=
| NONE
| OPENAI
| CONTENTUNDERSTANDING
| Unrecognized (value : string).

(** Modelled from the spec: a credential is a key credential or not
    (section 4.5); the credential classes are not among the sources. *)
Inductive Credential :=
| TokenCredential (name : string)
| AzureKeyCredential (key : string).

Definition is_key_credential (c : Credential) : bool :=
  match c with AzureKeyCredential _ => true | TokenCredential _ => false end.

(** Modelled from the spec: a describer object, whose class is not among
    the sources. [describer_id] is its identity: two describers are the
    same instance when their ids agree. *)
Record MediaDescriber := {
  describer_id : nat;
  describer_strategy : MediaDescriptionStrategy;
  describer_endpoint : option string }.

(** Modelled from the spec: the processor object of section 4.5, with
    the constructor arguments the test passes; [media_describer] is the
    cache and [content_understanding_ready] the readiness latch. The class
    is not among the sources. *)
Record FigureProcessor := {
  strategy : MediaDescriptionStrategy;
  credential : option Credential;
  content_understanding_endpoint : option string;
  openai_client : option string;
  openai_model : option string;
  openai_deployment : option string;
  media_describer : option MediaDescriber;
  content_understanding_ready : bool }.

Section Remote.
Context {W : Type}.

(** Modelled from the spec: the remote operations of a describer, the
    create-analyzer step and the image description; their code is not
    among the sources. *)
Record Remote := {
  create_analyzer : MediaDescriber -> W -> outcome unit * W;
  describe_image : MediaDescriber -> bytes -> W -> outcome (option string) * W }.

(** The outside world, the number of describers constructed so far, the
    ids of the describers whose create-analyzer step was invoked
    (oldest first) and the warnings logged. *)
Record St := {
  world : W;
  constructed : nat;
  create_analyzer_calls : list nat;
  warnings : list string }.

Context (remote : Remote).

Definition with_describer (fp : FigureProcessor) (d : MediaDescriber)
  : FigureProcessor :=
  {| strategy := strategy fp; credential := credential fp;
     content_understanding_endpoint := content_understanding_endpoint fp;
     openai_client := openai_client fp; openai_model := openai_model fp;
     openai_deployment := openai_deployment fp;
     media_describer := Some d;
     content_understanding_ready := content_understanding_ready fp |}.

(** Modelled from the spec: the one-way readiness latch of section 4.5,
    which neither gates nor resets the cache; the code of
    [FigureProcessor] is not among the sources. *)
Definition mark_content_understanding_ready (fp : FigureProcessor)
  : FigureProcessor :=
  {| strategy := strategy fp; credential := credential fp;
     content_understanding_endpoint := content_understanding_endpoint fp;
     openai_client := openai_client fp; openai_model := openai_model fp;
     openai_deployment := openai_deployment fp;
     media_describer := media_describer fp;
     content_understanding_ready := true |}.

(** Modelled from the spec: constructing a describer gives a fresh
    object; the constructors are not among the sources. *)
Definition construct (s : MediaDescriptionStrategy) (endpoint : option string)
    (st : St) : MediaDescriber * St :=
  ({| describer_id := constructed st; describer_strategy := s;
      describer_endpoint := endpoint |},
   {| world := world st; constructed := S (constructed st);
      create_analyzer_calls := create_analyzer_calls st;
      warnings := warnings st |}).

(** Modelled from the spec: invoking the remote create-analyzer step of
    [d], which is not among the sources; the invocation is recorded. *)
Definition invoke_create_analyzer (d : MediaDescriber) (st : St)
  : outcome unit * St :=
  let '(o, w) := create_analyzer remote d (world st) in
  (o, {| world := w; constructed := constructed st;
         create_analyzer_calls := create_analyzer_calls st ++ [describer_id d];
         warnings := warnings st |}).

Definition warn (msg : string) (st : St) : St :=
  {| world := world st; constructed := constructed st;
     create_analyzer_calls := create_analyzer_calls st;
     warnings := warnings st ++ [msg] |}.

(** Modelled from the spec: describer acquisition of
    [FigureProcessor] (section 4.5), whose code is not among the
    sources. [Uninitialized -> (first valid call) -> Cached]: a cached
    describer is returned as it is; otherwise the configuration of the
    strategy is validated before any external call, the describer is
    constructed, for CONTENTUNDERSTANDING its analyzer is created, and
    the describer is cached. NONE yields no describer; an unrecognized
    strategy logs a warning and yields none. The result is the
    outcome, the processor object as the call leaves it, and the
    state. *)
Definition get_media_describer (fp : FigureProcessor) (st : St)
  : outcome (option MediaDescriber) * FigureProcessor * St :=
  match media_describer fp with
  | Some d => (Returned (Some d), fp, st)
  | None =>
      match strategy fp with
      | NONE => (Returned None, fp, st)
      | OPENAI =>
          match openai_client fp, openai_model fp with
          | Some _, Some _ =>
              let '(d, st1) := construct OPENAI None st in
              (Returned (Some d), with_describer fp d, st1)
          | _, _ =>
              (Raised (ValueError
                 "OpenAI strategy requires both a client and a model name"), fp, st)
          end
      | CONTENTUNDERSTANDING =>
          match content_understanding_endpoint fp with
          | None =>
              (Raised (ValueError
                 "Content Understanding strategy requires an endpoint"), fp, st)
          | Some endpoint =>
              match credential fp with
              | None =>
                  (Raised (ValueError
                     "Content Understanding strategy requires a credential"), fp, st)
              | Some c =>
                  if is_key_credential c then
                    (Raised (ValueError
                       "Content Understanding does not support key credentials"), fp, st)
                  else
                    let '(d, st1) := construct CONTENTUNDERSTANDING (Some endpoint) st in
                    match invoke_create_analyzer d st1 with
                    | (Returned _, st2) => (Returned (Some d), with_describer fp d, st2)
                    | (Raised e, st2) => (Raised e, fp, st2)
                    end
              end
          end
      | Unrecognized value =>
          (Returned None, fp,
           warn ("Unknown media description strategy: " +:+ value) st)
      end
  end.

(** Modelled from the spec: [describe(bytes)] of section 4.5, which
    delegates to the acquired describer's image-description operation
    and yields no description when there is no describer. *)
Definition describe (fp : FigureProcessor) (image : bytes) (st : St)
  : outcome (option string) * FigureProcessor * St :=
  match get_media_describer fp st with
  | (Raised e, fp1, st1) => (Raised e, fp1, st1)
  | (Returned None, fp1, st1) => (Returned None, fp1, st1)
  | (Returned (Some d), fp1, st1) =>
      let '(o, w) := describe_image remote d image (world st1) in
      (o, fp1,
       {| world := w; constructed := constructed st1;
          create_analyzer_calls := create_analyzer_calls st1;
          warnings := warnings st1 |})
  end.

End Remote.

Arguments Remote : clear implicits.
Arguments St : clear implicits.

End FigureProcessor.

(** * Properties *)

(** ** [error_dict] *)

Module ErrorProps.
Import PyStr Error.

Lemma code_is_true code c : code_is code c = true <-> code = Some c.
Proof.
  destruct code as [c'|]; simpl; [|split; discriminate].
  rewrite String.eqb_eq. split; congruence.
Qed.

Lemma error_dict_singleton error : exists msg, error_dict error = {[ "error" := msg ]}.
Proof.
  unfold error_dict.
  repeat match goal with |- context [if ?b then _ else _] => destruct b end;
    eexists; reflexivity.
Qed.

Lemma length_message_advice :
  exists pre post,
    ERROR_MESSAGE_LENGTH = pre +:+ "Please shorten your message" +:+ post.
Proof.
  exists "Your message exceeded the context length limit for this OpenAI model. ",
    " or change your settings to retrieve fewer search results.".
  reflexivity.
Qed.

Lemma append_nested (a b c : string) : (a +:+ b) +:+ c = a +:+ (b +:+ c).
Proof.
  induction a as [|x a IH]; [reflexivity|].
  change (String x ((a +:+ b) +:+ c) = String x (a +:+ (b +:+ c))).
  f_equal. exact IH.
Qed.

Lemma generic_text (error : Exception) :
  ({[ "error" := ERROR_MESSAGE (class_str (type_of error)) ]} : gmap string string) =
  {[ "error" :=
       "The app encountered an error processing your request." +:+ nl +:+
       "If you are an administrator of the app, check the application logs for a full traceback."
         +:+ nl +:+
       "Error type: <class '" +:+
       (if String.eqb (cls_module (type_of error)) "builtins"
        then cls_name (type_of error)
        else cls_module (type_of error) +:+ "." +:+ cls_name (type_of error)) +:+
       "'>" +:+ nl ]}.
Proof.
  f_equal. unfold ERROR_MESSAGE, class_str.
  rewrite !append_nested. reflexivity.
Qed.

(** C8, as amended. [error_dict] returns a dict whose only key is
    ["error"]. Its value is the content-filter text for an [APIError] with
    code ["content_filter"]; the context-length text, which asks to shorten
    the message, for an [APIError] with code ["context_length_exceeded"];
    for an [HttpResponseError] the Azure-service text around the message
    and the class name, the message starting with ["[HTTP status] "]
    exactly when [error.response] is true and its [status_code] is true
    (present and not [0]); and for everything else the generic text, which
    ends with the class of the error as [str] shows it. *)
Theorem error_dict_messages (error : Exception) :
  let newline := String "010"%char EmptyString in
  dom (error_dict error) = {[ "error" ]} /\
  (forall cls, error = APIError cls (Some "content_filter") ->
     error_dict error =
       {[ "error" :=
            "Your message contains content that was flagged by the OpenAI content filter." ]}) /\
  (forall cls, error = APIError cls (Some "context_length_exceeded") ->
     error_dict error =
       {[ "error" :=
            "Your message exceeded the context length limit for this OpenAI model. " +:+
            "Please shorten your message or change your settings to retrieve fewer search results." ]}) /\
  (forall cls message str_error response,
     error = HttpResponseError cls message str_error response ->
     let msg :=
       match message with
       | Some m => if String.eqb m EmptyString then str_error else m
       | None => str_error
       end in
     let azure (text : string) : gmap string string :=
       {[ "error" :=
            "Azure service error: " +:+ text +:+ newline +:+
            "If indexing is in progress, try again in a minute. Error type: " +:+
            cls_name cls ]} in
     (forall r status,
        response = Some r -> response_truthy r = true ->
        status_code r = Some status -> status <> 0 ->
        error_dict error = azure ("[HTTP " +:+ pretty status +:+ "] " +:+ msg)) /\
     (response = None \/
      (exists r, response = Some r /\
         (response_truthy r = false \/ status_code r = None \/ status_code r = Some 0)) ->
      error_dict error = azure msg)) /\
  (is_HttpResponseError error = false ->
   (is_APIError error = true ->
    code_of error <> Some "content_filter" /\
    code_of error <> Some "context_length_exceeded") ->
   let cls := type_of error in
   let shown :=
     if String.eqb (cls_module cls) "builtins" then cls_name cls
     else cls_module cls +:+ "." +:+ cls_name cls in
   error_dict error =
     {[ "error" :=
          "The app encountered an error processing your request." +:+ newline +:+
          "If you are an administrator of the app, check the application logs for a full traceback."
            +:+ newline +:+
          "Error type: <class '" +:+ shown +:+ "'>" +:+ newline ]}).
Proof.
  intros newline. split; [|split; [|split; [|split]]].
  - destruct (error_dict_singleton error) as [msg ->]. apply dom_singleton_L.
  - intros cls ->. reflexivity.
  - intros cls ->. reflexivity.
  - intros cls message str_error response -> msg azure. split.
    + intros r status -> Ht Hr Hs.
      unfold error_dict; simpl. rewrite Ht, Hr; simpl.
      apply Z.eqb_neq in Hs. rewrite Hs. reflexivity.
    + intros H. unfold error_dict; simpl.
      destruct H as [-> | (r & -> & [Ht | [Hr | Hr]])]; simpl.
      * reflexivity.
      * rewrite Ht. reflexivity.
      * destruct (response_truthy r); [rewrite Hr|]; reflexivity.
      * destruct (response_truthy r); [rewrite Hr|]; reflexivity.
  - intros Hhttp Hapi cls shown. unfold error_dict. rewrite Hhttp.
    destruct (is_APIError error) eqn:Eapi; simpl; [|apply generic_text].
    destruct (Hapi eq_refl) as [H1 H2].
    destruct (code_is (code_of error) "content_filter") eqn:E1.
    { apply code_is_true in E1. contradiction. }
    destruct (code_is (code_of error) "context_length_exceeded") eqn:E2.
    { apply code_is_true in E2. contradiction. }
    apply generic_text.
Qed.

Definition ResourceNotFoundError : PyClass :=
  {| cls_module := "azure.core.exceptions"; cls_name := "ResourceNotFoundError" |}.

Lemma error_dict_messages_witness :
  error_dict
    (HttpResponseError ResourceNotFoundError (Some "Index not found") "x"
       (Some {| response_truthy := true; status_code := Some 404 |})) !! "error" =
    Some ("Azure service error: [HTTP 404] Index not found" +:+ nl +:+
          "If indexing is in progress, try again in a minute. Error type: ResourceNotFoundError")
  /\ error_dict (OtherException {| cls_module := "builtins"; cls_name := "KeyError" |})
       !! "error" =
     Some ("The app encountered an error processing your request." +:+ nl +:+
           "If you are an administrator of the app, check the application logs for a full traceback."
             +:+ nl +:+
           "Error type: <class 'KeyError'>" +:+ nl).
Proof.
  split.
  - pose proof (error_dict_messages
      (HttpResponseError ResourceNotFoundError (Some "Index not found") "x"
         (Some {| response_truthy := true; status_code := Some 404 |})))
      as (_ & _ & _ & H & _).
    destruct (H ResourceNotFoundError (Some "Index not found") "x"
                (Some {| response_truthy := true; status_code := Some 404 |}) eq_refl)
      as [H1 _].
    rewrite (H1 {| response_truthy := true; status_code := Some 404 |} 404
               eq_refl eq_refl eq_refl ltac:(lia)).
    reflexivity.
  - pose proof (error_dict_messages
      (OtherException {| cls_module := "builtins"; cls_name := "KeyError" |}))
      as (_ & _ & _ & _ & H).
    rewrite H; [reflexivity | reflexivity | discriminate].
Defined.

(** C8 as stated fails: an [HttpResponseError] whose response carries the
    status code 404 and is false as a truth value (a response class whose
    truth value is its success, for one) gets no ["[HTTP 404]"] prefix. *)
Lemma status_available_without_prefix :
  let response := {| response_truthy := false; status_code := Some 404 |} in
  let error :=
    HttpResponseError ResourceNotFoundError (Some "Index not found") "Index not found"
      (Some response) in
  status_code response = Some 404 /\
  error_dict error !! "error" =
    Some ("Azure service error: Index not found" +:+ nl +:+
          "If indexing is in progress, try again in a minute. Error type: ResourceNotFoundError") /\
  error_dict error !! "error" <>
    Some ("Azure service error: [HTTP 404] Index not found" +:+ nl +:+
          "If indexing is in progress, try again in a minute. Error type: ResourceNotFoundError").
Proof. split; [reflexivity|]. split; [reflexivity | discriminate]. Qed.

End ErrorProps.

(** ** The upload id of a trigger path *)

Module UploadIdProps.
Import PyStr Py ZipProcessor.

Lemma split_not_nil c s : split c s <> [].
Proof.
  destruct s as [|a r]; simpl; [discriminate|].
  destruct (Ascii.eqb a c); [discriminate|].
  destruct (split c r); discriminate.
Qed.

Lemma split_single c s : length (split c s) = 1%nat -> split c s = [s].
Proof.
  induction s as [|a r IH]; simpl; [reflexivity|].
  destruct (Ascii.eqb a c).
  - pose proof (split_not_nil c r). destruct (split c r); simpl; [contradiction | discriminate].
  - pose proof (split_not_nil c r) as Hne.
    destruct (split c r) as [|h t] eqn:E; [contradiction|].
    simpl. intros Hlen. destruct t; [|discriminate].
    specialize (IH eq_refl). congruence.
Qed.

Lemma snoc2_decompose {A} (l : list A) :
  (2 <= length l)%nat -> exists pre a b, l = pre ++ [a; b].
Proof.
  destruct l as [|b l'] using rev_ind; simpl; [lia|].
  destruct l' as [|a pre] using rev_ind.
  - simpl. lia.
  - intros _. exists pre, a, b. rewrite <- app_assoc. reflexivity.
Qed.

Lemma upload_id_of_snoc2 pre a b : upload_id_of (pre ++ [a; b]) = a.
Proof.
  unfold upload_id_of, len. rewrite length_app. simpl length.
  destruct (2 <=? Z.of_nat (length pre + 2)) eqn:E; [|apply Z.leb_nle in E; lia].
  replace (length pre + 2 - 2)%nat with (length pre) by lia.
  rewrite list_lookup_middle; reflexivity.
Qed.

(** C7, as amended. The parts of a trigger path are never empty. With two
    parts or more, [upload_id] is the second-from-last part. With fewer
    there is exactly one part, the whole normalized path, and [upload_id]
    is that part: the ["unknown"] of the source is not reached. *)
Theorem upload_id_derivation (name : string) :
  let path := strip "/" (replace "\" "/" name) in
  let parts := parts_of name in
  parts <> [] /\
  (2 <= len parts ->
   exists pre a b, parts = pre ++ [a; b] /\ upload_id_of parts = a) /\
  (len parts < 2 -> parts = [path] /\ upload_id_of parts = path).
Proof.
  intros path parts. split; [apply split_not_nil|]. split.
  - intros H. destruct (snoc2_decompose parts) as (pre & a & b & E).
    { unfold len in H. lia. }
    exists pre, a, b. split; [exact E|]. rewrite E. apply upload_id_of_snoc2.
  - intros H.
    assert (E : parts = [path]).
    { change parts with (split "/" path) in *. apply split_single.
      pose proof (split_not_nil "/" path) as Hne. unfold len in H.
      destruct (split "/" path) as [|p [|q t]]; simpl in *;
        [contradiction | reflexivity | lia]. }
    split; [exact E|]. rewrite E. reflexivity.
Qed.

Lemma upload_id_derivation_witness :
  upload_id_of (parts_of "user-content/_sessions/3f2a/_job.json") = "3f2a" /\
  upload_id_of (parts_of "/_job.json") = "_job.json".
Proof.
  split.
  - destruct (upload_id_derivation "user-content/_sessions/3f2a/_job.json")
      as (_ & H & _).
    destruct (H ltac:(vm_compute; discriminate)) as (pre & a & b & E & ->).
    vm_compute in E.
    apply (f_equal (@rev string)) in E. rewrite rev_app_distr in E. simpl in E.
    congruence.
  - destruct (upload_id_derivation "/_job.json") as (_ & _ & H).
    destruct (H ltac:(vm_compute; reflexivity)) as [_ ->]. reflexivity.
Defined.

(** C7 as stated fails: a path with one segment gets that segment as its
    upload id, not the sentinel. *)
Lemma upload_id_single_segment_not_sentinel :
  len (parts_of "_job.json") < 2 /\
  upload_id_of (parts_of "_job.json") = "_job.json" /\
  upload_id_of (parts_of "_job.json") <> "unknown".
Proof. vm_compute. repeat split; congruence. Qed.

End UploadIdProps.

(** ** The flattened key *)

Module FlattenProps.
Import PyStr Py ZipProcessor.

(** Reading a flattened path back: every pair of underscores, taken from
    the left, becomes a slash. *)
Fixpoint unflatten (s : string) : string :=
  match s with
  | EmptyString => EmptyString
  | String a r =>
      if Ascii.eqb a "_" then
        match r with
        | String b r' =>
            if Ascii.eqb b "_" then String "/" (unflatten r') else String a (unflatten r)
        | EmptyString => String a EmptyString
        end
      else String a (unflatten r)
  end.

(** No underscore of [p] is directly followed by an underscore or a slash. *)
Fixpoint tame (p : string) : bool :=
  match p with
  | EmptyString => true
  | String a r =>
      (if Ascii.eqb a "_" then
         match r with
         | String b _ => negb (Ascii.eqb b "_") && negb (Ascii.eqb b "/")
         | EmptyString => true
         end
       else true) && tame r
  end.

Lemma unflatten_replace p : tame p = true -> unflatten (replace "/" "__" p) = p.
Proof.
  induction p as [|a r IH]; [reflexivity|].
  cbn [tame replace]. intros H. apply andb_true_iff in H as [Ha Hr].
  specialize (IH Hr).
  destruct (Ascii.eqb a "/") eqn:Eslash.
  - apply Ascii.eqb_eq in Eslash. subst a.
    change ("__" +:+ replace "/" "__" r)
      with (String "_" (String "_" (replace "/" "__" r))).
    change (unflatten (String "_" (String "_" (replace "/" "__" r))))
      with (String "/" (unflatten (replace "/" "__" r))).
    rewrite IH. reflexivity.
  - destruct (Ascii.eqb a "_") eqn:Eund.
    + apply Ascii.eqb_eq in Eund. subst a.
      destruct r as [|b r']; [reflexivity|].
      apply andb_true_iff in Ha as [Hb1 Hb2].
      apply negb_true_iff in Hb1, Hb2.
      cbn [replace] in *. rewrite Hb2 in *.
      cbn [unflatten] in *. cbn [Ascii.eqb Bool.eqb]. rewrite Hb1 in *.
      f_equal. exact IH.
    + cbn [unflatten]. rewrite Eund. f_equal. exact IH.
Qed.

Lemma append_inv_head (s t u : string) : s +:+ t = s +:+ u -> t = u.
Proof.
  induction s as [|a s IH]; simpl; [tauto|].
  intros H. apply IH. injection H as H. exact H.
Qed.

(** C3, as amended. For a fixed archive basename, two distinct relative
    paths in which no underscore is directly followed by an underscore or
    a slash have distinct flattened keys. *)
Theorem flattened_key_injective_on_tame (zip_basename p q : string) :
  tame p = true -> tame q = true -> p <> q ->
  flattened_key zip_basename p <> flattened_key zip_basename q.
Proof.
  intros Hp Hq Hne Heq. apply Hne.
  unfold flattened_key in Heq.
  apply append_inv_head in Heq. apply append_inv_head in Heq.
  rewrite <- (unflatten_replace p Hp), <- (unflatten_replace q Hq).
  congruence.
Qed.

Lemma flattened_key_injective_on_tame_witness :
  flattened_key "proj" "src/my_app.tsx" = "proj__src__my_app.tsx" /\
  flattened_key "proj" "src/my_app.tsx" <> flattened_key "proj" "src/my/app.tsx".
Proof.
  split; [reflexivity|].
  apply (flattened_key_injective_on_tame "proj" "src/my_app.tsx" "src/my/app.tsx");
    [reflexivity | reflexivity | discriminate].
Defined.

(** C3 as stated fails: an archive listing [a/b.md] and [a__b.md] has two
    eligible entries with distinct relative paths and one flattened key. *)
Lemma flattened_key_collision :
  to_process_of ascii_lowering {[ ".md" ]} "proj" ["a/b.md"; "a__b.md"] =
    [("a/b.md", "a/b.md", "proj__a__b.md"); ("a__b.md", "a__b.md", "proj__a__b.md")] /\
  "a/b.md" <> "a__b.md" /\
  flattened_key "proj" "a/b.md" = flattened_key "proj" "a__b.md".
Proof. split; [vm_compute; reflexivity|]. split; [discriminate | reflexivity]. Qed.

End FlattenProps.

(** ** The trigger handler *)

Module TriggerProps.
Import PyStr Py ZipProcessor.

Section Trigger.
Context {W : Type} (rt : Runtime W).

(** [json.loads(blob.read().decode("utf-8"))]: the parsed job body, or the
    exception of the first step that raises. *)
Definition parse_job (blob : InputStream) : outcome json :=
  match blob_read blob with
  | Raised e => Raised e
  | Returned raw =>
      match decode_utf8 rt raw with
      | Raised e => Raised e
      | Returned text => json_loads rt text
      end
  end.

(** The state [st] with one more log record and nothing else changed. *)
Definition logged (st : St W) (lvl : LogLevel) (fmt : string) (args : list LogArg)
  : St W :=
  {| world := world st; progress_calls := progress_calls st;
     log := log st ++ [{| log_level := lvl; log_fmt := fmt; log_args := args |}] |}.

Definition upload_id_for (blob : InputStream) : string :=
  upload_id_of (parts_of (blob_name blob)).

Ltac run_monad :=
  unfold mbind, M_bind, mret, M_ret, bind, ret, try_except, lift, emit, raise.

Lemma zip_processor_unparsed blob st e :
  parse_job blob = Raised e ->
  zip_processor rt blob st =
    (Returned tt,
     logged st EXCEPTION "Invalid _job.json for %s: %s"
       [ArgStr (upload_id_for blob); ArgExn e]).
Proof.
  unfold parse_job, zip_processor. run_monad.
  destruct (blob_read blob) as [raw|e0]; [|intros [= ->]; reflexivity].
  destruct (decode_utf8 rt raw) as [text|e0]; [|intros [= ->]; reflexivity].
  destruct (json_loads rt text) as [job|e0]; [discriminate|].
  intros [= ->]. reflexivity.
Qed.

Lemma zip_processor_parsed blob st job :
  parse_job blob = Returned job ->
  zip_processor rt blob st =
    (filename ← lift (job_get job "filename");
     user_oid ← lift (job_get job "user_oid");
     if negb (truthy filename) || negb (truthy user_oid) then
       emit ERROR "Missing filename or user_oid in _job.json for %s"
         [ArgStr (upload_id_for blob)]
     else
       emit INFO "Processing zip job %s for user %s"
         [ArgStr (upload_id_for blob); ArgVal user_oid];;
       try_except
         (process_zip_job rt (upload_id_for blob) filename user_oid;;
          emit INFO "Completed zip job %s" [ArgStr (upload_id_for blob)])
         (fun e =>
            emit EXCEPTION "Failed zip job %s: %s" [ArgStr (upload_id_for blob); ArgExn e];;
            raise e)) st.
Proof.
  unfold parse_job, zip_processor. run_monad.
  destruct (blob_read blob) as [raw|e0]; [|discriminate].
  destruct (decode_utf8 rt raw) as [text|e0]; [|discriminate].
  destruct (json_loads rt text) as [job'|e0]; [|discriminate].
  intros [= ->]. reflexivity.
Qed.

Lemma zip_processor_rejects blob st m :
  parse_job blob = Returned (JObj m) ->
  truthy (default JNull (m !! "filename")) = false \/
  truthy (default JNull (m !! "user_oid")) = false ->
  zip_processor rt blob st =
    (Returned tt,
     logged st ERROR "Missing filename or user_oid in _job.json for %s"
       [ArgStr (upload_id_for blob)]).
Proof.
  intros Hparse H. rewrite (zip_processor_parsed _ _ _ Hparse).
  run_monad. simpl.
  destruct H as [-> | ->]; [reflexivity|].
  rewrite orb_true_r. reflexivity.
Qed.

(** X20. When reading, decoding or parsing the job body raises,
    [zip_processor] logs the exception and returns. When the body parses
    to an object that lacks [filename] or [user_oid], it logs an error and
    returns; in both cases nothing else happens. When the body parses to
    an object with a true [filename] and a true [user_oid] and
    [process_zip_job] raises [e], [zip_processor] logs [e] and raises
    [e]. *)
Theorem zip_processor_failure_paths (blob : InputStream) (st : St W) :
  (forall e, parse_job blob = Raised e ->
     zip_processor rt blob st =
       (Returned tt,
        logged st EXCEPTION "Invalid _job.json for %s: %s"
          [ArgStr (upload_id_for blob); ArgExn e])) /\
  (forall m, parse_job blob = Returned (JObj m) ->
     m !! "filename" = None \/ m !! "user_oid" = None ->
     zip_processor rt blob st =
       (Returned tt,
        logged st ERROR "Missing filename or user_oid in _job.json for %s"
          [ArgStr (upload_id_for blob)])) /\
  (forall m filename user_oid e st',
     parse_job blob = Returned (JObj m) ->
     m !! "filename" = Some filename -> truthy filename = true ->
     m !! "user_oid" = Some user_oid -> truthy user_oid = true ->
     process_zip_job rt (upload_id_for blob) filename user_oid
       (logged st INFO "Processing zip job %s for user %s"
          [ArgStr (upload_id_for blob); ArgVal user_oid]) = (Raised e, st') ->
     zip_processor rt blob st =
       (Raised e,
        logged st' EXCEPTION "Failed zip job %s: %s"
          [ArgStr (upload_id_for blob); ArgExn e])).
Proof.
  split; [|split].
  - intros e. apply zip_processor_unparsed.
  - intros m Hparse H. apply zip_processor_rejects with (m := m); [exact Hparse|].
    destruct H as [-> | ->]; [left | right]; reflexivity.
  - intros m filename user_oid e st' Hparse Hf Tf Hu Tu Hjob.
    rewrite (zip_processor_parsed _ _ _ Hparse).
    run_monad. simpl. rewrite Hf, Hu. simpl. rewrite Tf, Tu. simpl.
    unfold logged in Hjob. rewrite Hjob. reflexivity.
Qed.

(** C6, where the code breaks it. When the job body parses to a value
    that is not an object ([null], a list, a string, a number), [filename]
    and [user_oid] are missing from it, yet [zip_processor] does not
    return: [job.get], which is outside both [try] blocks, raises
    [AttributeError], and the handler raises it with nothing logged and
    nothing else done. *)
Theorem zip_processor_non_object_raises (blob : InputStream) (st : St W) (job : json) :
  parse_job blob = Returned job -> (forall m, job <> JObj m) ->
  zip_processor rt blob st =
    (Raised (AttributeError ("'" +:+ type_name job +:+ "' object has no attribute 'get'")),
     st).
Proof.
  intros Hparse Hobj. rewrite (zip_processor_parsed _ _ _ Hparse).
  unfold mbind, M_bind, bind, lift.
  destruct job; try reflexivity. exfalso. eapply Hobj. reflexivity.
Qed.

(** C10. A [filename] or [user_oid] that is present but falsy (the empty
    string, [null], [0], [false], an empty list or object) is handled as a
    missing one: the handler logs the same error and returns, and nothing
    else happens, so [process_zip_job] is not run. *)
Theorem zip_processor_falsy_field (blob : InputStream) (st : St W)
    (m : gmap string json) :
  parse_job blob = Returned (JObj m) ->
  let rejected :=
    (Returned tt,
     logged st ERROR "Missing filename or user_oid in _job.json for %s"
       [ArgStr (upload_id_for blob)]) in
  truthy (JStr EmptyString) = false /\
  (forall v, m !! "filename" = Some v \/ m !! "user_oid" = Some v ->
     truthy v = false -> zip_processor rt blob st = rejected) /\
  (m !! "filename" = None \/ m !! "user_oid" = None ->
     zip_processor rt blob st = rejected).
Proof.
  intros Hparse rejected. split; [reflexivity|]. split.
  - intros v Hv Hfalsy. apply zip_processor_rejects with (m := m); [exact Hparse|].
    destruct Hv as [-> | ->]; [left | right]; exact Hfalsy.
  - intros H. apply zip_processor_rejects with (m := m); [exact Hparse|].
    destruct H as [-> | ->]; [left | right]; reflexivity.
Qed.

End Trigger.
End TriggerProps.

(** ** A small concrete environment

    The outside world is a journal of the collaborator calls made so far. *)

Module Fixtures.
Import PyStr Py ZipProcessor.

Definition noted {A : Type} (what : string) (o : outcome A) : action (list string) A :=
  fun w => (o, w ++ [what]).

(** A blob manager over [chunks], whose uploads fail for the key [bad_key]. *)
Definition adls_for (chunks : option bytes) (bad_key : string)
  : AdlsBlobManager (list string) :=
  {| get_session_chunks := fun upload_id => noted ("get_session_chunks " +:+ upload_id) (Returned chunks);
     upload_blob := fun _ key _ =>
       noted ("upload_blob " +:+ key)
         (if String.eqb key bad_key then Raised (Exn "HttpResponseError" "upload failed")
          else Returned ("https://blobs.example/" +:+ key));
     upload_session_progress := fun snap => noted ("upload_session_progress " +:+ status snap) (Returned tt);
     delete_session := fun upload_id _ => noted ("delete_session " +:+ upload_id) (Returned tt) |}.

(** An ingester for markdown and TypeScript files, whose [add_file] fails
    for the source path [bad_path]. *)
Definition ingester_for (bad_path : string) : UploadUserFileStrategy (list string) :=
  {| file_processors :=
       {[ ".md" := {| processor_name := "text" |};
          ".tsx" := {| processor_name := "text" |} ]};
     add_file := fun f _ =>
       noted ("add_file " +:+ source_path f)
         (if String.eqb (source_path f) bad_path then Raised (Exn "RuntimeError" "indexing failed")
          else Returned tt) |}.

Definition archive_of (names : list string) : ZipArchive :=
  {| namelist := names; zip_read := fun _ => Returned [Byte.x68; Byte.x69] |}.

Definition dq : string := String "034"%char EmptyString.

(** The text of a job descriptor. *)
Definition job_text (filename user_oid : string) : string :=
  "{" +:+ dq +:+ "filename" +:+ dq +:+ ": " +:+ dq +:+ filename +:+ dq +:+ ", " +:+
  dq +:+ "user_oid" +:+ dq +:+ ": " +:+ dq +:+ user_oid +:+ dq +:+ "}".

Definition job_object (filename user_oid : string) : json :=
  JObj {[ "filename" := JStr filename; "user_oid" := JStr user_oid ]}.

(** [json.loads] on the texts used below. *)
Definition loads (text : string) : outcome json :=
  if String.eqb text (job_text "proj.zip" "user-1") then Returned (job_object "proj.zip" "user-1")
  else if String.eqb text (job_text EmptyString "user-1") then Returned (job_object EmptyString "user-1")
  else if String.eqb text ("{" +:+ dq +:+ "user_oid" +:+ dq +:+ ": " +:+ dq +:+ "user-1" +:+ dq +:+ "}")
       then Returned (JObj {[ "user_oid" := JStr "user-1" ]})
  else Raised (Exn "JSONDecodeError" "Expecting value: line 1 column 1 (char 0)").

Definition runtime_for (chunks : option bytes) (names : list string)
    (bad_key bad_path : string) : Runtime (list string) :=
  {| get_settings :=
       noted "get_settings"
         (Returned {| adls_manager := adls_for chunks bad_key;
                      ingester := ingester_for bad_path |});
     ZipFile := fun _ => Returned (archive_of names);
     decode_utf8 := fun raw => Returned (string_of_list_byte raw);
     json_loads := loads;
     str_lower := ascii_lowering |}.

Definition blob_of (name text : string) : InputStream :=
  {| blob_name := name; blob_read := Returned (list_byte_of_string text) |}.

Definition some_chunks : option bytes := Some [Byte.x50; Byte.x4b; Byte.x03; Byte.x04].

End Fixtures.

Module TriggerWitnesses.
Import PyStr Py ZipProcessor TriggerProps Fixtures.

Definition job_path : string := "user-content/_sessions/3f2a/_job.json".

(** A runtime whose session has no chunks, so that [process_zip_job] raises. *)
Definition rt_no_chunks : Runtime (list string) :=
  runtime_for None [] EmptyString EmptyString.

Lemma zip_processor_failure_paths_witness :
  fst (zip_processor rt_no_chunks (blob_of job_path "not json") (initial [])) = Returned tt /\
  fst (zip_processor rt_no_chunks
         (blob_of job_path ("{" +:+ dq +:+ "user_oid" +:+ dq +:+ ": " +:+ dq +:+ "user-1" +:+ dq +:+ "}"))
         (initial [])) = Returned tt /\
  fst (zip_processor rt_no_chunks (blob_of job_path (job_text "proj.zip" "user-1")) (initial []))
    = Raised (ValueError "No chunks found for session 3f2a").
Proof.
  split; [|split].
  - destruct (zip_processor_failure_paths rt_no_chunks
                (blob_of job_path "not json") (initial [])) as (H & _ & _).
    rewrite (H (Exn "JSONDecodeError" "Expecting value: line 1 column 1 (char 0)"));
      [reflexivity | vm_compute; reflexivity].
  - destruct (zip_processor_failure_paths rt_no_chunks
                (blob_of job_path ("{" +:+ dq +:+ "user_oid" +:+ dq +:+ ": " +:+ dq +:+ "user-1" +:+ dq +:+ "}"))
                (initial [])) as (_ & H & _).
    rewrite (H {[ "user_oid" := JStr "user-1" ]});
      [reflexivity | vm_compute; reflexivity | left; vm_compute; reflexivity].
  - destruct (zip_processor_failure_paths rt_no_chunks
                (blob_of job_path (job_text "proj.zip" "user-1")) (initial []))
      as (_ & _ & H).
    erewrite (H {[ "filename" := JStr "proj.zip"; "user_oid" := JStr "user-1" ]}
                (JStr "proj.zip") (JStr "user-1")
                (ValueError "No chunks found for session 3f2a"));
      [reflexivity | vm_compute; reflexivity | vm_compute; reflexivity | reflexivity
      | vm_compute; reflexivity | reflexivity | vm_compute; reflexivity].
Defined.

(** A runtime whose [json.loads] reads the texts [null] and [[]]. *)
Definition rt_bare_values : Runtime (list string) :=
  {| get_settings := noted "get_settings" (Raised (Exn "RuntimeError" "unused"));
     ZipFile := fun _ => Raised (Exn "BadZipFile" "File is not a zip file");
     decode_utf8 := fun raw => Returned (string_of_list_byte raw);
     json_loads := fun text =>
       if String.eqb text "null" then Returned JNull
       else if String.eqb text "[]" then Returned (JArr [])
       else Raised (Exn "JSONDecodeError" "Expecting value: line 1 column 1 (char 0)");
     str_lower := ascii_lowering |}.

Lemma zip_processor_non_object_raises_witness :
  zip_processor rt_bare_values (blob_of job_path "null") (initial []) =
    (Raised (AttributeError "'NoneType' object has no attribute 'get'"), initial []) /\
  zip_processor rt_bare_values (blob_of job_path "[]") (initial []) =
    (Raised (AttributeError "'list' object has no attribute 'get'"), initial []).
Proof.
  split.
  - apply (zip_processor_non_object_raises rt_bare_values _ _ JNull);
      [reflexivity | discriminate].
  - apply (zip_processor_non_object_raises rt_bare_values _ _ (JArr []));
      [reflexivity | discriminate].
Defined.

Lemma zip_processor_falsy_field_witness :
  zip_processor (runtime_for some_chunks ["a.md"] EmptyString EmptyString)
    (blob_of job_path (job_text EmptyString "user-1")) (initial []) =
  (Returned tt,
   {| world := []; progress_calls := [];
      log := [{| log_level := ERROR;
                 log_fmt := "Missing filename or user_oid in _job.json for %s";
                 log_args := [ArgStr "3f2a"] |}] |}).
Proof.
  pose proof (zip_processor_falsy_field (runtime_for some_chunks ["a.md"] EmptyString EmptyString)
                (blob_of job_path (job_text EmptyString "user-1")) (initial [])
                ({[ "filename" := JStr EmptyString; "user_oid" := JStr "user-1" ]}
                   : gmap string json)) as H.
  destruct H as (_ & H & _); [vm_compute; reflexivity|].
  rewrite (H (JStr EmptyString)); [reflexivity | left; vm_compute; reflexivity | reflexivity].
Defined.

End TriggerWitnesses.

(** ** Size and count limits *)

Module LimitProps.
Import PyStr Py ZipProcessor.

Ltac run_monad :=
  unfold mbind, M_bind, mret, M_ret, bind, ret, try_except, lift, emit, raise, call.

Section Limits.
Context {W : Type} (rt : Runtime W).

(** The state [st] with the outside world replaced by [w]. *)
Definition with_world (st : St W) (w : W) : St W :=
  {| world := w; progress_calls := progress_calls st; log := log st |}.

(** [filename.rsplit(".", 1)[0] if "." in filename else "archive"] for a
    [str]. *)
Definition basename_of (filename : string) : string :=
  if contains "." filename then rsplit1_head "." filename else "archive".

Lemma zip_basename_of_str (filename : string) (st : St W) :
  zip_basename_of (JStr filename) st = (Returned (basename_of filename), st).
Proof.
  unfold zip_basename_of, basename_of. run_monad. simpl.
  destruct (contains "." filename); reflexivity.
Qed.

Lemma size_message :
  "Zip exceeds " +:+ pretty (MAX_ZIP_SIZE_BYTES `div` (1024 * 1024)) +:+ " MB limit"
  = "Zip exceeds 50 MB limit".
Proof. vm_compute. reflexivity. Qed.

Lemma count_message :
  "Zip contains too many files (max " +:+ pretty MAX_ZIP_FILE_COUNT +:+ ")"
  = "Zip contains too many files (max 30000)".
Proof. vm_compute. reflexivity. Qed.

Lemma no_data_cons (data : bytes) : data <> [] -> no_data (Some data) = false.
Proof. destruct data; [contradiction | reflexivity]. Qed.

Section Fetched.
Context (upload_id : string) (st : St W) (settings : Settings W) (w1 w2 : W)
  (data : bytes).
Hypothesis Hsettings : get_settings rt (world st) = (Returned settings, w1).
Hypothesis Hchunks :
  get_session_chunks (adls_manager settings) upload_id w1 = (Returned (Some data), w2).
Hypothesis Hdata : data <> [].

Lemma select_entries_too_large filename :
  MAX_ZIP_SIZE_BYTES < len data ->
  select_entries rt upload_id filename st =
    (Raised (ValueError "Zip exceeds 50 MB limit"), with_world st w2).
Proof.
  intros Hlen. unfold select_entries. run_monad.
  rewrite Hsettings. cbn [world]. rewrite Hchunks.
  rewrite (no_data_cons _ Hdata). cbn [default from_option id world progress_calls log].
  apply Z.ltb_lt in Hlen. rewrite Hlen. rewrite size_message. reflexivity.
Qed.

Lemma select_entries_opened filename zf :
  len data <= MAX_ZIP_SIZE_BYTES ->
  ZipFile rt data = Returned zf ->
  select_entries rt upload_id (JStr filename) st =
    if MAX_ZIP_FILE_COUNT <? len (members_of zf) then
      (Raised (ValueError "Zip contains too many files (max 30000)"), with_world st w2)
    else
      (Returned (settings, zf,
                 to_process_of (str_lower rt) (dom (file_processors (ingester settings)))
                   (basename_of filename) (members_of zf)),
       with_world st w2).
Proof.
  intros Hlen Hzip. unfold select_entries.
  unfold mbind at 1 2, M_bind at 1 2, bind at 1 2, call.
  rewrite Hsettings. cbn [world]. rewrite Hchunks.
  rewrite (no_data_cons _ Hdata). cbn [default from_option id world progress_calls log].
  apply Z.ltb_ge in Hlen. rewrite Hlen.
  unfold mbind at 1, M_bind at 1, bind at 1.
  rewrite zip_basename_of_str.
  unfold mbind, M_bind, bind, lift. rewrite Hzip.
  destruct (MAX_ZIP_FILE_COUNT <? len (members_of zf)).
  - unfold raise. rewrite count_message. reflexivity.
  - reflexivity.
Qed.

End Fetched.
End Limits.
End LimitProps.

(** ** The loop over the selected entries *)

Module LoopProps.
Import PyStr Py ZipProcessor.
Export LimitProps.

Section PerFile.
Context {W : Type} (adls : AdlsBlobManager W) (ing : UploadUserFileStrategy W)
  (zf : ZipArchive) (upload_id : string) (user_oid : json) (total : Z).

Abbreviation ingest := (ingest_entry adls ing zf user_oid).
Abbreviation report := (report_entry adls upload_id user_oid total).
Abbreviation turn := (process_entry adls ing zf upload_id user_oid total).
Abbreviation loop := (for_each adls ing zf upload_id user_oid total).
Abbreviation outcome_of := (outcome_of_entry adls ing zf upload_id user_oid total).
Abbreviation outcomes_of := (outcomes adls ing zf upload_id user_oid total).

(** The snapshot the loop and its surroundings push. *)
Definition snap (status : string) (ids : list string) (done : Z) : Snapshot :=
  {| snap_upload_id := upload_id; status := status; files_total := total;
     files_done := done; indexed_ids := ids; snap_user_oid := user_oid |}.

Definition key_of (entry : string * string * string) : string := entry.2.

Lemma progress_calls_after (s : Snapshot) (st : St W) :
  progress_calls (progress adls s st).2 = progress_calls st ++ [s].
Proof.
  unfold progress, call. cbn [world].
  destruct (upload_session_progress adls s (world st)); reflexivity.
Qed.

Lemma call_calls {A} (f : action W A) (st : St W) :
  progress_calls (call f st).2 = progress_calls st.
Proof. unfold call. destruct (f (world st)); reflexivity. Qed.

Lemma ingest_calls entry (st : St W) :
  progress_calls (ingest entry st).2 = progress_calls st.
Proof.
  destruct entry as [[name rel_path] flattened]. unfold ingest_entry.
  unfold mbind, M_bind, bind, lift.
  destruct (zip_read zf name) as [raw|e]; [|reflexivity].
  match goal with |- context [call ?f st] =>
    pose proof (call_calls f st) as H1; destruct (call f st) as [[url|e] st1] end;
    [|exact H1].
  match goal with |- context [call ?f st1] =>
    pose proof (call_calls f st1) as H2; destruct (call f st1) as [o st2] end.
  simpl in *. destruct o; simpl; congruence.
Qed.

Lemma report_calls ids done rel_path (st : St W) :
  progress_calls (report ids done rel_path st).2 =
    progress_calls st ++ [snap "processing" ids done].
Proof.
  unfold report_entry. unfold mbind, M_bind, bind, emit.
  pose proof (progress_calls_after (snap "processing" ids done) st) as H.
  fold (snap "processing" ids done).
  destruct (progress adls (snap "processing" ids done) st) as [[[]|e] st1];
    simpl in *; exact H.
Qed.

(** One turn in terms of its two halves. *)
Lemma turn_unfold ids done name rel_path flattened (st : St W) :
  turn (ids, done) (name, rel_path, flattened) st =
    match ingest (name, rel_path, flattened) st with
    | (Raised e, st1) =>
        on_error rel_path (ids, done) e st1
    | (Returned _, st1) =>
        match report (ids ++ [flattened]) (done + 1) rel_path st1 with
        | (Returned _, st2) => (Returned (ids ++ [flattened], done + 1), st2)
        | (Raised e, st2) => on_error rel_path (ids ++ [flattened], done + 1) e st2
        end
    end.
Proof.
  unfold process_entry. unfold try_except at 1.
  unfold mbind at 1, M_bind at 1, bind at 1.
  destruct (ingest (name, rel_path, flattened) st) as [[[]|e] st1]; [|reflexivity].
  unfold try_except, mbind, M_bind, bind, mret, M_ret, ret.
  destruct (report (ids ++ [flattened]) (done + 1) rel_path st1) as [[[]|e] st2];
    reflexivity.
Qed.

Lemma on_error_returns rel_path locals e (st : St W) :
  exists st', on_error rel_path locals e st = (Returned locals, st') /\
              progress_calls st' = progress_calls st.
Proof. eexists. split; reflexivity. Qed.

(** A turn never raises. What it leaves depends on its outcome: a failed
    entry changes neither the locals nor the calls made; otherwise the key
    is appended, the count incremented and one snapshot pushed. *)
Lemma turn_spec ids done entry (st : St W) :
  exists st',
    match outcome_of (ids, done) entry st with
    | Failed _ =>
        turn (ids, done) entry st = (Returned (ids, done), st') /\
        progress_calls st' = progress_calls st
    | Indexed | ReportFailed _ =>
        turn (ids, done) entry st = (Returned (ids ++ [key_of entry], done + 1), st') /\
        progress_calls st' =
          progress_calls st ++ [snap "processing" (ids ++ [key_of entry]) (done + 1)]
    end.
Proof.
  destruct entry as [[name rel_path] flattened].
  rewrite turn_unfold. unfold outcome_of_entry, key_of. cbn [snd].
  pose proof (ingest_calls (name, rel_path, flattened) st) as Hi.
  destruct (ingest (name, rel_path, flattened) st) as [[[]|e] st1]; cbn [snd] in Hi.
  - pose proof (report_calls (ids ++ [flattened]) (done + 1) rel_path st1) as Hr.
    destruct (report (ids ++ [flattened]) (done + 1) rel_path st1) as [[[]|e] st2];
      cbn [snd] in Hr; rewrite Hi in Hr.
    + exists st2. split; [reflexivity | exact Hr].
    + destruct (on_error_returns rel_path (ids ++ [flattened], done + 1) e st2)
        as (st' & E & Hc).
      exists st'. split; [exact E | congruence].
  - destruct (on_error_returns rel_path (ids, done) e st1) as (st' & E & Hc).
    exists st'. split; [exact E | congruence].
Qed.

(** The snapshots a run of the loop pushes, from the locals it starts with
    to the locals it ends with: each one appends a key and counts one more. *)
Inductive pushes : list string * Z -> list Snapshot -> list string * Z -> Prop :=
| pushes_none locals : pushes locals [] locals
| pushes_more ids done key new locals' :
    pushes (ids ++ [key], done + 1) new locals' ->
    pushes (ids, done) (snap "processing" (ids ++ [key]) (done + 1) :: new) locals'.

Lemma loop_spec to_process : forall ids done (st : St W),
  exists locals' st' new,
    loop (ids, done) to_process st = (Returned locals', st') /\
    progress_calls st' = progress_calls st ++ new /\
    pushes (ids, done) new locals'.
Proof.
  induction to_process as [|entry rest IH]; intros ids done st.
  - exists (ids, done), st, []. split; [reflexivity|].
    split; [rewrite app_nil_r; reflexivity | constructor].
  - cbn [for_each]. unfold mbind, M_bind, bind.
    destruct (turn_spec ids done entry st) as (st1 & H).
    destruct (outcome_of (ids, done) entry st).
    + destruct H as [-> Hc].
      destruct (IH (ids ++ [key_of entry]) (done + 1) st1) as (locals' & st' & new & E & Hc' & Hp).
      exists locals', st', (snap "processing" (ids ++ [key_of entry]) (done + 1) :: new).
      split; [exact E|]. split; [|constructor; exact Hp].
      rewrite Hc', Hc, <- app_assoc. reflexivity.
    + destruct H as [-> Hc].
      destruct (IH ids done st1) as (locals' & st' & new & E & Hc' & Hp).
      exists locals', st', new. split; [exact E|]. split; [congruence | exact Hp].
    + destruct H as [-> Hc].
      destruct (IH (ids ++ [key_of entry]) (done + 1) st1) as (locals' & st' & new & E & Hc' & Hp).
      exists locals', st', (snap "processing" (ids ++ [key_of entry]) (done + 1) :: new).
      split; [exact E|]. split; [|constructor; exact Hp].
      rewrite Hc', Hc, <- app_assoc. reflexivity.
Qed.

(** A sequence of snapshots that only grows: each has the fixed total, a
    list of ids extending the one before, and as many ids as files done. *)
Inductive chain : list string -> list Snapshot -> Prop :=
| chain_nil ids : chain ids []
| chain_cons ids s rest :
    files_total s = total ->
    ids `prefix_of` indexed_ids s ->
    files_done s = len (indexed_ids s) ->
    chain (indexed_ids s) rest ->
    chain ids (s :: rest).

Lemma pushes_chain locals new locals' :
  pushes locals new locals' ->
  locals.2 = len locals.1 ->
  chain locals.1 (new ++ [snap "completed" locals'.1 locals'.2]).
Proof.
  induction 1 as [[ids done]|ids done key new locals' Hp IH]; cbn [fst snd] in *; intros Hlen.
  - constructor; cbn; [reflexivity | reflexivity | exact Hlen | constructor].
  - constructor; cbn.
    + reflexivity.
    + apply prefix_app_r. reflexivity.
    + unfold len in *. rewrite length_app. simpl. lia.
    + apply IH. unfold len in *. rewrite length_app. simpl. lia.
Qed.

(** What [process_entries] pushes: the first snapshot, then, unless pushing
    it raised, the snapshots of the loop and the final one. *)
Lemma process_entries_calls to_process (st : St W) :
  exists rest,
    progress_calls (process_entries adls ing zf upload_id user_oid total to_process st).2
      = progress_calls st ++ snap "processing" [] 0 :: rest /\
    chain [] rest.
Proof.
  unfold process_entries. fold (snap "processing" [] 0).
  unfold mbind at 1, M_bind at 1, bind at 1.
  pose proof (progress_calls_after (snap "processing" [] 0) st) as H0.
  destruct (progress adls (snap "processing" [] 0) st) as [[[]|e] st0]; cbn [snd] in H0.
  - unfold mbind, M_bind, bind.
    destruct (loop_spec to_process [] 0 st0) as ([ids' done'] & st1 & new & -> & Hc & Hp).
    fold (snap "completed" ids' done').
    exists (new ++ [snap "completed" ids' done']). split.
    + rewrite progress_calls_after, Hc, H0. rewrite <- !app_assoc. reflexivity.
    + apply (pushes_chain _ _ _ Hp). reflexivity.
  - exists []. split; [exact H0 | constructor].
Qed.

Lemma chain_lookup calls : forall ids i s,
  chain ids calls -> calls !! i = Some s ->
  ids `prefix_of` indexed_ids s /\ files_total s = total /\
  files_done s = len (indexed_ids s) /\ chain (indexed_ids s) (drop (S i) calls).
Proof.
  induction calls as [|c rest IH]; intros ids i s Hc Hi; [discriminate|].
  inversion Hc as [|? ? ? Ht Hp Hd Hrest]; subst.
  destruct i as [|i]; cbn in Hi.
  - injection Hi as ->. cbn [drop]. rewrite drop_0. auto.
  - destruct (IH _ _ _ Hrest Hi) as (Hp' & Ht' & Hd' & Hc').
    split; [etransitivity; eassumption|]. auto.
Qed.

Lemma chain_ordered calls ids i j s s' :
  chain ids calls -> (i <= j)%nat ->
  calls !! i = Some s -> calls !! j = Some s' ->
  files_done s <= files_done s' /\
  indexed_ids s `prefix_of` indexed_ids s' /\
  files_total s = files_total s'.
Proof.
  intros Hc Hij Hi Hj.
  destruct (chain_lookup _ _ _ _ Hc Hi) as (_ & Ht & Hd & Hrest).
  destruct (decide (i = j)) as [->|Hne].
  - assert (s = s') as -> by congruence. split; [lia|]. split; reflexivity.
  - assert (Hj' : drop (S i) calls !! (j - S i)%nat = Some s').
    { rewrite lookup_drop. replace (S i + (j - S i))%nat with j by lia. exact Hj. }
    destruct (chain_lookup _ _ _ _ Hrest Hj') as (Hp & Ht' & Hd' & _).
    split; [|split; [exact Hp | congruence]].
    rewrite Hd, Hd'. unfold len. apply prefix_length in Hp. lia.
Qed.

Lemma outcomes_cons locals y l (st : St W) :
  outcomes_of locals (y :: l) st =
    outcome_of locals y st ::
    match turn locals y st with
    | (Returned locals', st') => outcomes_of locals' l st'
    | (Raised _, _) => []
    end.
Proof. reflexivity. Qed.

(** When every turn indexes its entry, the loop appends all the keys. *)
Lemma loop_all_indexed l : forall ids done (st : St W),
  outcomes_of (ids, done) l st = replicate (length l) Indexed ->
  exists st',
    loop (ids, done) l st = (Returned (ids ++ map key_of l, done + len l), st').
Proof.
  induction l as [|y l IH]; intros ids done st H.
  - exists st. cbn. rewrite app_nil_r, Z.add_0_r. reflexivity.
  - rewrite outcomes_cons in H. cbn [length replicate] in H.
    remember (outcome_of (ids, done) y st) as o eqn:Hy. symmetry in Hy.
    remember (turn (ids, done) y st) as t eqn:Et.
    injection H as -> Hrest. subst t.
    destruct (turn_spec ids done y st) as (st1 & Ht). rewrite Hy in Ht.
    destruct Ht as [Ht _]. rewrite Ht in Hrest.
    destruct (IH _ _ _ Hrest) as (st' & E).
    exists st'. cbn [for_each]. unfold mbind, M_bind, bind. rewrite Ht, E.
    rewrite <- app_assoc. cbn [map app]. unfold len. cbn [length].
    replace (done + Z.of_nat (S (length l))) with (done + 1 + Z.of_nat (length l)) by lia.
    reflexivity.
Qed.

(** When one turn fails in [ingest_entry] and every other turn indexes its
    entry, the loop returns and appends the keys of the other entries. *)
Lemma loop_one_failure l1 x l2 e : forall ids done (st : St W),
  outcomes_of (ids, done) (l1 ++ x :: l2) st =
    replicate (length l1) Indexed ++ Failed e :: replicate (length l2) Indexed ->
  exists st',
    loop (ids, done) (l1 ++ x :: l2) st =
      (Returned (ids ++ map key_of (l1 ++ l2), done + len (l1 ++ l2)), st').
Proof.
  induction l1 as [|y l1 IH]; intros ids done st H.
  - cbn [app] in H. rewrite outcomes_cons in H. cbn [app length replicate] in H.
    remember (outcome_of (ids, done) x st) as o eqn:Hx. symmetry in Hx.
    remember (turn (ids, done) x st) as t eqn:Et.
    injection H as -> Hrest. subst t.
    destruct (turn_spec ids done x st) as (st1 & Ht). rewrite Hx in Ht.
    destruct Ht as [Ht _]. rewrite Ht in Hrest.
    destruct (loop_all_indexed _ _ _ _ Hrest) as (st' & E).
    exists st'. cbn [app for_each]. unfold mbind, M_bind, bind. rewrite Ht, E.
    reflexivity.
  - cbn [app] in H. rewrite outcomes_cons in H. cbn [app length replicate] in H.
    remember (outcome_of (ids, done) y st) as o eqn:Hy. symmetry in Hy.
    remember (turn (ids, done) y st) as t eqn:Et.
    injection H as -> Hrest. subst t.
    destruct (turn_spec ids done y st) as (st1 & Ht). rewrite Hy in Ht.
    destruct Ht as [Ht _]. rewrite Ht in Hrest.
    destruct (IH _ _ _ Hrest) as (st' & E).
    exists st'. cbn [app for_each]. unfold mbind, M_bind, bind. rewrite Ht, E.
    rewrite <- app_assoc. cbn [map app]. unfold len. cbn [length].
    replace (done + Z.of_nat (S (length (l1 ++ l2))))
      with (done + 1 + Z.of_nat (length (l1 ++ l2))) by lia.
    reflexivity.
Qed.

(** The last call of [process_entries], when the first snapshot was pushed
    and the loop returned. *)
Lemma process_entries_final to_process (st st0 st1 : St W) ids done :
  progress adls (snap "processing" [] 0) st = (Returned tt, st0) ->
  loop ([], 0) to_process st0 = (Returned (ids, done), st1) ->
  last (progress_calls
          (process_entries adls ing zf upload_id user_oid total to_process st).2)
    = Some (snap "completed" ids done).
Proof.
  intros H0 Hl. unfold process_entries. fold (snap "processing" [] 0).
  unfold mbind, M_bind, bind. rewrite H0, Hl. fold (snap "completed" ids done).
  rewrite progress_calls_after. apply last_snoc.
Qed.

End PerFile.
End LoopProps.

(** ** Progress snapshots of a whole job *)

Module ProgressProps.
Import PyStr Py ZipProcessor LoopProps.

Section Job.
Context {W : Type} (rt : Runtime W).

Lemma zip_basename_of_state filename (st : St W) :
  (zip_basename_of filename st).2 = st.
Proof.
  unfold zip_basename_of, mbind, M_bind, bind, lift, mret, M_ret, ret.
  destruct (contains_dot filename) as [[]|e]; [|reflexivity|reflexivity].
  destruct (rsplit_dot_head filename); reflexivity.
Qed.

(** Selecting the entries makes no [upload_session_progress] call. *)
Lemma select_entries_calls upload_id filename (st : St W) :
  progress_calls (select_entries rt upload_id filename st).2 = progress_calls st.
Proof.
  unfold select_entries.
  unfold mbind at 1, M_bind at 1, bind at 1.
  pose proof (call_calls (get_settings rt) st) as H1.
  destruct (call (get_settings rt) st) as [[settings|e] st1]; cbn [snd] in *; [|exact H1].
  unfold mbind at 1, M_bind at 1, bind at 1.
  pose proof (call_calls (get_session_chunks (adls_manager settings) upload_id) st1) as H2.
  destruct (call (get_session_chunks (adls_manager settings) upload_id) st1)
    as [[data|e] st2]; cbn [snd] in *; [|congruence].
  destruct (no_data data); [cbn; congruence|].
  destruct (MAX_ZIP_SIZE_BYTES <? len (default [] data)); [cbn; congruence|].
  unfold mbind at 1, M_bind at 1, bind at 1.
  pose proof (zip_basename_of_state filename st2) as H3.
  destruct (zip_basename_of filename st2) as [[zb|e] st3]; cbn [snd] in *; subst st3;
    [|congruence].
  unfold mbind, M_bind, bind, lift.
  destruct (ZipFile rt (default [] data)) as [zf|e]; [|cbn; congruence].
  destruct (MAX_ZIP_FILE_COUNT <? len (members_of zf)); cbn; congruence.
Qed.

(** The job in terms of its phases. *)
Lemma process_zip_job_unfold upload_id filename user_oid (st : St W) :
  process_zip_job rt upload_id filename user_oid st =
    match select_entries rt upload_id filename st with
    | (Raised e, st1) => (Raised e, st1)
    | (Returned (settings, zf, to_process), st1) =>
        match process_entries (adls_manager settings) (ingester settings) zf
                upload_id user_oid (len to_process) to_process st1 with
        | (Raised e, st2) => (Raised e, st2)
        | (Returned _, st2) =>
            call (delete_session (adls_manager settings) upload_id true) st2
        end
    end.
Proof.
  unfold process_zip_job, mbind, M_bind, bind.
  destruct (select_entries rt upload_id filename st) as [[[[settings zf] tp]|e] st1];
    reflexivity.
Qed.

(** The calls of a job: none, or a first snapshot with no file done
    followed by a growing chain, all with one total. *)
Lemma process_zip_job_calls upload_id filename user_oid (st : St W) :
  let calls := progress_calls (process_zip_job rt upload_id filename user_oid st).2 in
  calls = progress_calls st \/
  exists total first rest,
    calls = progress_calls st ++ first :: rest /\
    files_done first = 0 /\ indexed_ids first = [] /\
    chain total [] (first :: rest).
Proof.
  intros calls. subst calls. rewrite process_zip_job_unfold.
  pose proof (select_entries_calls upload_id filename st) as Hs.
  destruct (select_entries rt upload_id filename st) as [[[[settings zf] tp]|e] st1];
    cbn [snd] in Hs; [|left; exact Hs].
  right.
  destruct (process_entries_calls (adls_manager settings) (ingester settings) zf
              upload_id user_oid (len tp) tp st1) as (rest & Hc & Hchain).
  exists (len tp), (snap upload_id user_oid (len tp) "processing" [] 0), rest.
  split; [|split; [reflexivity|split; [reflexivity|]]].
  - destruct (process_entries (adls_manager settings) (ingester settings) zf
                upload_id user_oid (len tp) tp st1) as [[[]|e] st2]; cbn [snd] in Hc.
    + rewrite call_calls. congruence.
    + cbn [snd]. congruence.
  - constructor; [reflexivity | reflexivity | reflexivity | exact Hchain].
Qed.

(** C2. In the sequence of [upload_session_progress] calls of one run of
    [process_zip_job]: the first call has [files_done = 0] and no ids;
    every call has as many ids as files done; and from a call to any
    later one [files_done] does not decrease, [indexed_ids] is extended
    at its end only, and [files_total] is the same. *)
Theorem progress_calls_invariant (upload_id : string) (filename user_oid : json) (w : W) :
  let calls :=
    progress_calls (process_zip_job rt upload_id filename user_oid (initial w)).2 in
  (forall s, head calls = Some s -> files_done s = 0 /\ indexed_ids s = []) /\
  (forall s, s ∈ calls -> len (indexed_ids s) = files_done s) /\
  (forall i j s s', (i <= j)%nat -> calls !! i = Some s -> calls !! j = Some s' ->
     files_done s <= files_done s' /\
     indexed_ids s `prefix_of` indexed_ids s' /\
     files_total s = files_total s').
Proof.
  intros calls.
  destruct (process_zip_job_calls upload_id filename user_oid (initial w))
    as [E | (total & first & rest & E & Hd & Hi & Hchain)];
    fold calls in E; cbn [initial progress_calls app] in E; rewrite E.
  - split; [discriminate|]. split; [intros s Hs; inversion Hs|].
    intros i j s s' _ Hs. rewrite lookup_nil in Hs. discriminate.
  - split; [|split].
    + intros s [= <-]. auto.
    + intros s Hs. apply list_elem_of_lookup in Hs as [i Hi'].
      destruct (chain_lookup _ _ _ _ _ Hchain Hi') as (_ & _ & H & _). congruence.
    + intros i j s s' Hij Hi' Hj'. exact (chain_ordered _ _ _ _ _ _ _ Hchain Hij Hi' Hj').
Qed.

End Job.
End ProgressProps.

(** ** One failing entry *)

Module FailureProps.
Import PyStr Py ZipProcessor LoopProps ProgressProps.

Section Job.
Context {W : Type} (rt : Runtime W).

(** C1, as amended. When the archive yields the entries
    [l1 ++ x :: l2], the first snapshot is pushed, the turn of [x] fails in
    its chunk read, blob upload or [add_file], and every other turn goes
    through, then the loop returns, and the last snapshot of the job has
    status ["completed"], [files_done = N - 1] and as [indexed_ids] the
    flattened keys of the other [N - 1] entries, in order. The key of [x]
    is absent from them when no other entry has the same flattened key. *)
Theorem one_failure_still_completes (upload_id : string) (filename user_oid : json)
    (st st1 st2 : St W) (settings : Settings W) (zf : ZipArchive)
    (l1 l2 : list (string * string * string)) (x : string * string * string)
    (e : exn) :
  let adls := adls_manager settings in
  let ing := ingester settings in
  let N := len (l1 ++ x :: l2) in
  let ids := map key_of (l1 ++ l2) in
  select_entries rt upload_id filename st = (Returned (settings, zf, l1 ++ x :: l2), st1) ->
  progress adls (snap upload_id user_oid N "processing" [] 0) st1 = (Returned tt, st2) ->
  outcomes adls ing zf upload_id user_oid N ([], 0) (l1 ++ x :: l2) st2 =
    replicate (length l1) Indexed ++ Failed e :: replicate (length l2) Indexed ->
  (exists st3,
     for_each adls ing zf upload_id user_oid N ([], 0) (l1 ++ x :: l2) st2 =
       (Returned (ids, N - 1), st3)) /\
  last (progress_calls (process_zip_job rt upload_id filename user_oid st).2) =
    Some {| snap_upload_id := upload_id; status := "completed"; files_total := N;
            files_done := N - 1; indexed_ids := ids; snap_user_oid := user_oid |} /\
  len ids = N - 1 /\
  (Forall (fun y => key_of y <> key_of x) (l1 ++ l2) -> key_of x ∉ ids).
Proof.
  intros adls ing N ids Hsel Hfirst Hout.
  destruct (loop_one_failure adls ing zf upload_id user_oid N l1 x l2 e [] 0 st2 Hout)
    as (st3 & Hloop).
  assert (HN : 0 + len (l1 ++ l2) = N - 1).
  { subst N. unfold len. rewrite !length_app. cbn [length]. lia. }
  cbn [app] in Hloop. fold ids in Hloop. rewrite HN in Hloop.
  split; [exists st3; exact Hloop|]. split; [|split].
  - rewrite process_zip_job_unfold, Hsel.
    pose proof (process_entries_final adls ing zf upload_id user_oid N _ _ _ _ _ _
                  Hfirst Hloop) as Hlast.
    fold adls ing N.
    destruct (process_entries adls ing zf upload_id user_oid N (l1 ++ x :: l2) st1)
      as [[[]|e'] st4]; cbn [snd] in *.
    + rewrite call_calls. exact Hlast.
    + exact Hlast.
  - subst ids. unfold len in *. rewrite length_map. lia.
  - intros Hfresh Hin. subst ids. apply list_elem_of_fmap in Hin as (y & Hy & Hin).
    rewrite Forall_forall in Hfresh. apply (Hfresh y Hin). symmetry. exact Hy.
Qed.

End Job.
End FailureProps.

Module FailureWitnesses.
Import PyStr Py ZipProcessor LoopProps FailureProps Fixtures.

(** Three eligible files and an image; [add_file] fails for [README.md]. *)
Definition rt_readme_fails : Runtime (list string) :=
  runtime_for some_chunks ["src/app.tsx"; "logo.png"; "README.md"; "docs/guide.md"]
    EmptyString "README.md".

Lemma one_failure_still_completes_witness :
  last (progress_calls
          (process_zip_job rt_readme_fails "3f2a" (JStr "proj.zip") (JStr "user-1")
             (initial [])).2) =
    Some {| snap_upload_id := "3f2a"; status := "completed"; files_total := 3;
            files_done := 2;
            indexed_ids := ["proj__src__app.tsx"; "proj__docs__guide.md"];
            snap_user_oid := JStr "user-1" |}.
Proof.
  edestruct (one_failure_still_completes rt_readme_fails "3f2a" (JStr "proj.zip")
               (JStr "user-1") (initial []))
    with (l1 := [("src/app.tsx", "src/app.tsx", "proj__src__app.tsx")])
         (x := ("README.md", "README.md", "proj__README.md"))
         (l2 := [("docs/guide.md", "docs/guide.md", "proj__docs__guide.md")])
         (e := Exn "RuntimeError" "indexing failed")
    as (_ & H & _).
  - vm_compute. reflexivity.
  - vm_compute. reflexivity.
  - vm_compute. reflexivity.
  - exact H.
Defined.

(** Two eligible entries that flatten to one key; [add_file] fails for the
    first. *)
Definition rt_collision : Runtime (list string) :=
  runtime_for some_chunks ["a/b.md"; "a__b.md"] EmptyString "a/b.md".

(** C1 as stated fails in its last clause: exactly one of the two entries
    raises, in [add_file], the job returns and ends on a completed
    snapshot with [files_done = 1], and the key of the failed entry is in
    [indexed_ids], put there by the other entry. *)
Lemma failed_key_still_listed :
  let failed := ("a/b.md", "a/b.md", "proj__a__b.md") in
  let other := ("a__b.md", "a__b.md", "proj__a__b.md") in
  let run := process_zip_job rt_collision "3f2a" (JStr "proj.zip") (JStr "user-1")
               (initial []) in
  exists settings zf st1 st2 final,
    select_entries rt_collision "3f2a" (JStr "proj.zip") (initial [])
      = (Returned (settings, zf, [failed; other]), st1) /\
    progress (adls_manager settings)
      (snap "3f2a" (JStr "user-1") 2 "processing" [] 0) st1 = (Returned tt, st2) /\
    outcomes (adls_manager settings) (ingester settings) zf "3f2a" (JStr "user-1") 2
      ([], 0) [failed; other] st2
      = [Failed (Exn "RuntimeError" "indexing failed"); Indexed] /\
    run.1 = Returned tt /\
    last (progress_calls run.2) = Some final /\
    status final = "completed" /\ files_done final = 1 /\
    key_of failed ∈ indexed_ids final.
Proof.
  intros failed other run. do 4 eexists.
  exists {| snap_upload_id := "3f2a"; status := "completed"; files_total := 2;
            files_done := 1; indexed_ids := ["proj__a__b.md"];
            snap_user_oid := JStr "user-1" |}.
  split; [vm_compute; reflexivity|].
  split; [vm_compute; reflexivity|].
  split; [vm_compute; reflexivity|].
  split; [vm_compute; reflexivity|].
  split; [vm_compute; reflexivity|].
  split; [reflexivity|]. split; [reflexivity|].
  cbn. apply list_elem_of_here.
Qed.

End FailureWitnesses.

(** ** The limits of a job *)

Module JobLimitProps.
Import PyStr Py ZipProcessor LoopProps ProgressProps.

Section Job.
Context {W : Type} (rt : Runtime W).

(** C4, as amended. With the chunks of the session fetched: when they are
    larger than 50 MiB the job raises a [ValueError] citing 50 MB; when
    they are not and the archive has more than 30000 entries that are not
    directories, it raises a [ValueError] citing 30000. In both cases the
    state is the one [get_session_chunks] left: no snapshot was pushed and
    no other collaborator was called. At 50 MiB and 30000 such entries, or
    below, the entries are selected and the first snapshot is pushed. *)
Theorem limits_before_any_snapshot (upload_id filename : string) (user_oid : json)
    (st : St W) (settings : Settings W) (w1 w2 : W) (data : bytes) :
  get_settings rt (world st) = (Returned settings, w1) ->
  get_session_chunks (adls_manager settings) upload_id w1 = (Returned (Some data), w2) ->
  data <> [] ->
  let job := process_zip_job rt upload_id (JStr filename) user_oid st in
  MAX_ZIP_SIZE_BYTES = 50 * 2 ^ 20 /\ MAX_ZIP_FILE_COUNT = 30000 /\
  (MAX_ZIP_SIZE_BYTES < len data ->
   job = (Raised (ValueError "Zip exceeds 50 MB limit"), with_world st w2)) /\
  (forall zf, len data <= MAX_ZIP_SIZE_BYTES -> ZipFile rt data = Returned zf ->
     (MAX_ZIP_FILE_COUNT < len (members_of zf) ->
      job = (Raised (ValueError "Zip contains too many files (max 30000)"),
             with_world st w2)) /\
     (len (members_of zf) <= MAX_ZIP_FILE_COUNT ->
      exists to_process rest,
        select_entries rt upload_id (JStr filename) st =
          (Returned (settings, zf, to_process), with_world st w2) /\
        progress_calls job.2 =
          progress_calls st ++
          snap upload_id user_oid (len to_process) "processing" [] 0 :: rest)).
Proof.
  intros Hsettings Hchunks Hdata job.
  split; [reflexivity|]. split; [reflexivity|]. split.
  - intros Hlen. subst job. rewrite process_zip_job_unfold.
    rewrite (select_entries_too_large rt upload_id st settings w1 w2 data
               Hsettings Hchunks Hdata _ Hlen).
    reflexivity.
  - intros zf Hlen Hzip.
    pose proof (select_entries_opened rt upload_id st settings w1 w2 data
                  Hsettings Hchunks Hdata filename zf Hlen Hzip) as Hsel.
    split; intros Hcount.
    + apply Z.ltb_lt in Hcount. rewrite Hcount in Hsel.
      subst job. rewrite process_zip_job_unfold, Hsel. reflexivity.
    + apply Z.ltb_ge in Hcount. rewrite Hcount in Hsel.
      eexists. 
      destruct (process_entries_calls (adls_manager settings) (ingester settings) zf
                  upload_id user_oid
                  (len (to_process_of (str_lower rt) (dom (file_processors (ingester settings)))
                          (basename_of filename) (members_of zf)))
                  (to_process_of (str_lower rt) (dom (file_processors (ingester settings)))
                     (basename_of filename) (members_of zf))
                  (with_world st w2)) as (rest & Hc & _).
      exists rest. split; [exact Hsel|].
      subst job. rewrite process_zip_job_unfold, Hsel.
      match goal with |- context [process_entries ?a ?b ?c ?d ?e ?f ?g ?h] =>
        destruct (process_entries a b c d e f g h) as [[[]|e'] st2] end;
        cbn [snd] in *; [rewrite call_calls|]; exact Hc.
Qed.

Lemma filter_split_length {A} (f : A -> bool) (l : list A) :
  len (List.filter (fun x => negb (f x)) l) = len l - len (List.filter f l).
Proof.
  unfold len. induction l as [|x l IH]; [reflexivity|].
  cbn [List.filter]. destruct (f x); cbn [negb length]; lia.
Qed.

Lemma elem_of_to_process low supported zip_basename members name rel_path key :
  (name, rel_path, key) ∈ to_process_of low supported zip_basename members <->
  name ∈ members /\ rel_path = rel_path_of name /\
  lower low (splitext_ext rel_path) ∈ supported /\
  key = flattened_key zip_basename rel_path.
Proof.
  unfold to_process_of. rewrite list_elem_of_omap. split.
  - intros (name' & Hin & H). case_bool_decide; [|discriminate].
    injection H as H1 H2 H3. subst. auto.
  - intros (Hin & -> & Hext & ->). exists name. split; [exact Hin|].
    rewrite bool_decide_eq_true_2 by exact Hext. reflexivity.
Qed.

(** C5, as amended. The count compared against the maximum is the number
    of entries left once the directory entries (names ending in a slash)
    are dropped, that is the full entry count less the directory entries:
    the job is rejected for its count exactly when that number exceeds
    30000. Separator normalization and extension filtering come after the
    comparison, on those same entries. *)
Theorem count_cap_on_files (upload_id filename : string)
    (st : St W) (settings : Settings W) (w1 w2 : W) (data : bytes) (zf : ZipArchive) :
  get_settings rt (world st) = (Returned settings, w1) ->
  get_session_chunks (adls_manager settings) upload_id w1 = (Returned (Some data), w2) ->
  data <> [] -> len data <= MAX_ZIP_SIZE_BYTES ->
  ZipFile rt data = Returned zf ->
  let files := List.filter (fun m => negb (endswith m "/")) (namelist zf) in
  let directories := List.filter (fun m => endswith m "/") (namelist zf) in
  let selected := select_entries rt upload_id (JStr filename) st in
  len files = len (namelist zf) - len directories /\
  (selected = (Raised (ValueError "Zip contains too many files (max 30000)"),
               with_world st w2)
   <-> MAX_ZIP_FILE_COUNT < len files) /\
  (len files <= MAX_ZIP_FILE_COUNT ->
   exists to_process,
     selected = (Returned (settings, zf, to_process), with_world st w2) /\
     forall name rel_path key,
       (name, rel_path, key) ∈ to_process <->
       name ∈ files /\ rel_path = rel_path_of name /\
       lower (str_lower rt) (splitext_ext rel_path)
         ∈ dom (file_processors (ingester settings)) /\
       key = flattened_key (basename_of filename) rel_path).
Proof.
  intros Hsettings Hchunks Hdata Hlen Hzip files directories selected.
  pose proof (select_entries_opened rt upload_id st settings w1 w2 data
                Hsettings Hchunks Hdata filename zf Hlen Hzip) as Hsel.
  fold selected in Hsel. change (members_of zf) with files in Hsel.
  split; [apply filter_split_length|]. split; [split|].
  - intros E. rewrite E in Hsel.
    destruct (MAX_ZIP_FILE_COUNT <? len files) eqn:Hc; [|discriminate].
    apply Z.ltb_lt. exact Hc.
  - intros Hc. apply Z.ltb_lt in Hc. rewrite Hc in Hsel. exact Hsel.
  - intros Hc. apply Z.ltb_ge in Hc. rewrite Hc in Hsel.
    eexists. split; [exact Hsel|].
    intros name rel_path key. apply elem_of_to_process.
Qed.

End Job.
End JobLimitProps.

Module JobLimitWitnesses.
Import PyStr Py ZipProcessor LoopProps ProgressProps JobLimitProps Fixtures.

(** [n] zero bytes. *)
Definition zeros (n : Z) : bytes := replicate (Z.to_nat n) Byte.x00.

Lemma len_zeros n : 0 <= n -> len (zeros n) = n.
Proof. intros H. unfold len, zeros. rewrite length_replicate. lia. Defined.

Lemma zeros_not_nil n : 0 < n -> zeros n <> [].
Proof.
  intros H E. apply (f_equal len) in E. rewrite len_zeros in E by lia.
  unfold len in E. simpl in E. lia.
Defined.

(** [n] entries named [img.png], which no processor is registered for (an
    archive may list a name more than once). *)
Definition images (n : Z) : list string := replicate (Z.to_nat n) "img.png".

Definition settings_of (chunks : option bytes) : Settings (list string) :=
  {| adls_manager := adls_for chunks EmptyString;
     ingester := ingester_for EmptyString |}.

Lemma limits_before_any_snapshot_witness :
  (process_zip_job
     (runtime_for (Some (zeros (MAX_ZIP_SIZE_BYTES + 1))) (images 1) EmptyString EmptyString)
     "3f2a" (JStr "proj.zip") (JStr "user-1") (initial [])).1
    = Raised (ValueError "Zip exceeds 50 MB limit") /\
  (process_zip_job
     (runtime_for (Some (zeros MAX_ZIP_SIZE_BYTES)) (images (MAX_ZIP_FILE_COUNT + 1))
        EmptyString EmptyString)
     "3f2a" (JStr "proj.zip") (JStr "user-1") (initial [])).1
    = Raised (ValueError "Zip contains too many files (max 30000)") /\
  exists to_process st1,
    select_entries
      (runtime_for (Some (zeros MAX_ZIP_SIZE_BYTES)) (images MAX_ZIP_FILE_COUNT)
         EmptyString EmptyString)
      "3f2a" (JStr "proj.zip") (initial []) =
      (Returned (settings_of (Some (zeros MAX_ZIP_SIZE_BYTES)),
                 archive_of (images MAX_ZIP_FILE_COUNT), to_process), st1).
Proof.
  split; [|split].
  - destruct (limits_before_any_snapshot
                (runtime_for (Some (zeros (MAX_ZIP_SIZE_BYTES + 1))) (images 1)
                   EmptyString EmptyString)
                "3f2a" "proj.zip" (JStr "user-1") (initial [])
                (settings_of (Some (zeros (MAX_ZIP_SIZE_BYTES + 1))))
                ["get_settings"] ["get_settings"; "get_session_chunks 3f2a"]
                (zeros (MAX_ZIP_SIZE_BYTES + 1))
                eq_refl eq_refl (zeros_not_nil (MAX_ZIP_SIZE_BYTES + 1) eq_refl))
      as (_ & _ & H & _).
    rewrite H; [reflexivity|]. rewrite len_zeros; [lia | discriminate].
  - destruct (limits_before_any_snapshot
                (runtime_for (Some (zeros MAX_ZIP_SIZE_BYTES)) (images (MAX_ZIP_FILE_COUNT + 1))
                   EmptyString EmptyString)
                "3f2a" "proj.zip" (JStr "user-1") (initial [])
                (settings_of (Some (zeros MAX_ZIP_SIZE_BYTES)))
                ["get_settings"] ["get_settings"; "get_session_chunks 3f2a"]
                (zeros MAX_ZIP_SIZE_BYTES)
                eq_refl eq_refl (zeros_not_nil MAX_ZIP_SIZE_BYTES eq_refl))
      as (_ & _ & _ & H).
    destruct (H (archive_of (images (MAX_ZIP_FILE_COUNT + 1)))) as [H1 _].
    + rewrite len_zeros; [lia | discriminate].
    + reflexivity.
    + rewrite H1; [reflexivity|]. vm_compute. reflexivity.
  - destruct (limits_before_any_snapshot
                (runtime_for (Some (zeros MAX_ZIP_SIZE_BYTES)) (images MAX_ZIP_FILE_COUNT)
                   EmptyString EmptyString)
                "3f2a" "proj.zip" (JStr "user-1") (initial [])
                (settings_of (Some (zeros MAX_ZIP_SIZE_BYTES)))
                ["get_settings"] ["get_settings"; "get_session_chunks 3f2a"]
                (zeros MAX_ZIP_SIZE_BYTES)
                eq_refl eq_refl (zeros_not_nil MAX_ZIP_SIZE_BYTES eq_refl))
      as (_ & _ & _ & H).
    destruct (H (archive_of (images MAX_ZIP_FILE_COUNT))) as [_ H2].
    + rewrite len_zeros; [lia | discriminate].
    + reflexivity.
    + destruct H2 as (to_process & rest & Hsel & _).
      * vm_compute. discriminate.
      * exists to_process. eexists. exact Hsel.
Defined.

(** 30000 image files and one directory entry. *)
Definition images_and_directory : list string := images MAX_ZIP_FILE_COUNT ++ ["assets/"].

Definition rt_images_and_directory : Runtime (list string) :=
  runtime_for some_chunks images_and_directory EmptyString EmptyString.

(** C4 as stated fails: an archive of 30001 entries, one of them a
    directory, exceeds the entry count of 30000, yet the job raises no
    error and pushes its snapshots. *)
Lemma over_count_with_directory_accepted :
  let run := process_zip_job rt_images_and_directory "3f2a" (JStr "proj.zip")
               (JStr "user-1") (initial []) in
  len images_and_directory = 30001 /\
  MAX_ZIP_FILE_COUNT < len images_and_directory /\
  run.1 = Returned tt /\
  map status (progress_calls run.2) = ["processing"; "completed"].
Proof. vm_compute. repeat split; reflexivity. Qed.

Lemma count_cap_on_files_witness :
  exists to_process,
    (select_entries
       (runtime_for some_chunks ["docs/"; "docs\Guide.MD"; "/src/app.tsx"; "logo.png"]
          EmptyString EmptyString)
       "3f2a" (JStr "proj.zip") (initial [])).1 =
    Returned (settings_of some_chunks,
              archive_of ["docs/"; "docs\Guide.MD"; "/src/app.tsx"; "logo.png"],
              to_process) /\
    ("docs\Guide.MD", "docs/Guide.MD", "proj__docs__Guide.MD") ∈ to_process.
Proof.
  destruct (count_cap_on_files
              (runtime_for some_chunks ["docs/"; "docs\Guide.MD"; "/src/app.tsx"; "logo.png"]
                 EmptyString EmptyString)
              "3f2a" "proj.zip" (initial []) (settings_of some_chunks)
              ["get_settings"] ["get_settings"; "get_session_chunks 3f2a"]
              [Byte.x50; Byte.x4b; Byte.x03; Byte.x04]
              (archive_of ["docs/"; "docs\Guide.MD"; "/src/app.tsx"; "logo.png"])
              eq_refl eq_refl ltac:(discriminate) ltac:(vm_compute; discriminate) eq_refl)
    as (_ & _ & H).
  destruct H as (to_process & Hsel & Hmem); [vm_compute; discriminate|].
  exists to_process. split; [rewrite Hsel; reflexivity|].
  apply Hmem. split; [|split; [reflexivity | split; [|reflexivity]]].
  - apply list_elem_of_here.
  - apply (bool_decide_unpack _). vm_compute. exact I.
Defined.

(** C5 as stated fails: the full entry count of this archive is 30001,
    above the maximum, and the count check lets it through, because the
    directory entry was dropped before counting. *)
Lemma directory_dropped_before_count :
  let zf := archive_of images_and_directory in
  ZipFile rt_images_and_directory [Byte.x50; Byte.x4b; Byte.x03; Byte.x04] = Returned zf /\
  MAX_ZIP_FILE_COUNT < len (namelist zf) /\
  len (members_of zf) = MAX_ZIP_FILE_COUNT /\
  exists to_process st1,
    select_entries rt_images_and_directory "3f2a" (JStr "proj.zip") (initial [])
      = (Returned (settings_of some_chunks, zf, to_process), st1).
Proof.
  intros zf. split; [reflexivity|].
  split; [vm_compute; reflexivity|].
  assert (Hfiles : len (members_of zf) = MAX_ZIP_FILE_COUNT) by (vm_compute; reflexivity).
  split; [exact Hfiles|].
  rewrite (select_entries_opened rt_images_and_directory "3f2a" (initial [])
             (settings_of some_chunks)
             ["get_settings"] ["get_settings"; "get_session_chunks 3f2a"]
             [Byte.x50; Byte.x4b; Byte.x03; Byte.x04]
             eq_refl eq_refl ltac:(discriminate) "proj.zip" zf
             ltac:(vm_compute; discriminate) eq_refl).
  rewrite Hfiles, Z.ltb_irrefl. do 2 eexists. reflexivity.
Qed.

End JobLimitWitnesses.

(** ** The describer cache *)

Module DescriberProps.
Import Py FigureProcessor.

Section Remote.
Context {W : Type} (remote : Remote W).

(** A correctly configured CONTENTUNDERSTANDING processor: an endpoint and
    a credential that is not a key. *)
Definition configured (fp : FigureProcessor) : Prop :=
  strategy fp = CONTENTUNDERSTANDING /\
  exists endpoint c,
    content_understanding_endpoint fp = Some endpoint /\
    credential fp = Some c /\ is_key_credential c = false.

(** Once cached, acquisition returns the cached describer and changes
    neither the processor nor the state. *)
Lemma get_media_describer_cached fp d (st : St W) :
  media_describer fp = Some d ->
  get_media_describer remote fp st = (Returned (Some d), fp, st).
Proof. intros H. unfold get_media_describer. rewrite H. reflexivity. Qed.

Lemma describe_cached fp d image (st : St W) :
  media_describer fp = Some d ->
  exists o st',
    describe remote fp image st = (o, fp, st') /\
    create_analyzer_calls st' = create_analyzer_calls st /\
    constructed st' = constructed st.
Proof.
  intros H. unfold describe. rewrite (get_media_describer_cached _ _ _ H).
  destruct (describe_image remote d image (world st)) as [o w].
  do 2 eexists. split; [reflexivity|]. split; reflexivity.
Qed.

(** The first acquisition of a configured processor that returns. *)
Lemma get_media_describer_first fp o fp1 (st st1 : St W) :
  configured fp -> media_describer fp = None ->
  get_media_describer remote fp st = (Returned o, fp1, st1) ->
  exists d,
    o = Some d /\ fp1 = with_describer fp d /\
    create_analyzer_calls st1 = create_analyzer_calls st ++ [describer_id d] /\
    constructed st1 = S (constructed st).
Proof.
  intros (Hs & endpoint & c & He & Hc & Hk) Hnone.
  unfold get_media_describer. rewrite Hnone, Hs, He, Hc, Hk.
  unfold construct, invoke_create_analyzer. cbn [world describer_id].
  destruct (create_analyzer remote _ (world st)) as [[[]|e] w]; [|discriminate].
  intros [= <- <- <-]. eexists. split; [reflexivity|]. split; [reflexivity|].
  split; reflexivity.
Qed.

(** C9. When the first [describe] call on a correctly configured
    CONTENTUNDERSTANDING processor with an empty cache returns, it has
    constructed one describer, invoked its create-analyzer step once and
    cached it. From then on every acquisition returns that same describer
    and changes nothing, and a second [describe] call constructs nothing
    and invokes no create-analyzer step: after both calls the step was
    invoked exactly once. *)
Theorem describer_initialized_once (fp fp1 : FigureProcessor) (image : bytes)
    (r1 : option string) (st st1 : St W) :
  configured fp -> media_describer fp = None ->
  describe remote fp image st = (Returned r1, fp1, st1) ->
  exists d,
    media_describer fp1 = Some d /\
    create_analyzer_calls st1 = create_analyzer_calls st ++ [describer_id d] /\
    constructed st1 = S (constructed st) /\
    (forall st', get_media_describer remote fp1 st' = (Returned (Some d), fp1, st')) /\
    (forall image2, exists r2 st2,
       describe remote fp1 image2 st1 = (r2, fp1, st2) /\
       create_analyzer_calls st2 = create_analyzer_calls st ++ [describer_id d] /\
       constructed st2 = S (constructed st)).
Proof.
  intros Hconf Hnone Hdesc. unfold describe in Hdesc.
  destruct (get_media_describer remote fp st) as [[[o|e] fp'] st'] eqn:Hget;
    [|discriminate].
  destruct (get_media_describer_first _ _ _ _ _ Hconf Hnone Hget)
    as (d & -> & -> & Hcalls & Hcons).
  destruct (describe_image remote d image (world st')) as [o' w] eqn:Himg.
  injection Hdesc as -> <- <-. cbn [create_analyzer_calls constructed].
  exists d. split; [reflexivity|]. split; [exact Hcalls|]. split; [exact Hcons|].
  split.
  - intros st2. apply get_media_describer_cached. reflexivity.
  - intros image2.
    destruct (describe_cached (with_describer fp d) d image2
                {| world := w; constructed := constructed st';
                   create_analyzer_calls := create_analyzer_calls st';
                   warnings := warnings st' |} eq_refl)
      as (r2 & st2 & E & H1 & H2).
    exists r2, st2. split; [exact E|]. cbn in H1, H2. split; congruence.
Qed.

End Remote.

(** A remote whose operations succeed, as the mocks of the test. *)
Definition mock_remote : Remote unit :=
  {| create_analyzer := fun _ w => (Returned tt, w);
     describe_image := fun _ _ w => (Returned (Some "A diagram"), w) |}.

Definition processor : FigureProcessor :=
  {| strategy := CONTENTUNDERSTANDING;
     credential := Some (TokenCredential "MockAzureCredential");
     content_understanding_endpoint := Some "https://example.com";
     openai_client := None; openai_model := None; openai_deployment := None;
     media_describer := None; content_understanding_ready := false |}.

Definition fresh : St unit :=
  {| world := tt; constructed := 0; create_analyzer_calls := []; warnings := [] |}.

Lemma describer_initialized_once_witness :
  exists fp1 st1 r2 st2,
    describe mock_remote processor [Byte.x69] fresh = (Returned (Some "A diagram"), fp1, st1) /\
    describe mock_remote fp1 [Byte.x69] st1 = (r2, fp1, st2) /\
    create_analyzer_calls st2 = [0%nat].
Proof.
  destruct (describer_initialized_once mock_remote processor
              (with_describer processor
                 {| describer_id := 0; describer_strategy := CONTENTUNDERSTANDING;
                    describer_endpoint := Some "https://example.com" |})
              [Byte.x69] (Some "A diagram") fresh
              {| world := tt; constructed := 1; create_analyzer_calls := [0%nat];
                 warnings := [] |})
    as (d & Hd & _ & _ & _ & H2).
  - split; [reflexivity|]. do 2 eexists. repeat split; reflexivity.
  - reflexivity.
  - reflexivity.
  - destruct (H2 [Byte.x69]) as (r2 & st2 & E & Hcalls & _).
    do 4 eexists. split; [reflexivity|]. split; [exact E|].
    rewrite Hcalls. cbn in Hd. injection Hd as <-. reflexivity.
Defined.

End DescriberProps.

Module ProgressWitnesses.
Import PyStr Py ZipProcessor ProgressProps Fixtures FailureWitnesses.

Lemma progress_calls_invariant_witness :
  let calls :=
    progress_calls (process_zip_job rt_readme_fails "3f2a" (JStr "proj.zip")
                      (JStr "user-1") (initial [])).2 in
  map files_done calls = [0; 1; 2; 2] /\
  map files_total calls = [3; 3; 3; 3] /\
  forall i j s s', (i <= j)%nat -> calls !! i = Some s -> calls !! j = Some s' ->
    files_done s <= files_done s' /\
    indexed_ids s `prefix_of` indexed_ids s' /\
    files_total s = files_total s'.
Proof.
  intros calls. split; [vm_compute; reflexivity|]. split; [vm_compute; reflexivity|].
  apply (progress_calls_invariant rt_readme_fails "3f2a" (JStr "proj.zip")
           (JStr "user-1") []).
Defined.

End ProgressWitnesses.

(** * Further properties of the sources *)

(** ** [error_response] of [app/backend/error.py] *)

Module ErrorResponse.
Import PyStr Error.

(** The call [logging.exception("Exception in %s: %s", route, error)]. *)
Record LoggedException := {
  logged_fmt : string;
  logged_route : string;
  logged_error : Exception }.

(** What [error_response] gives back: the record it logs, the dict handed
    to [jsonify] and the status code. *)
Record ErrorResponse := {
  resp_logged : LoggedException;
  resp_body : gmap string string;
  resp_status : Z }.

Definition error_response (error : Exception) (route : string) (status_code : Z)
  : ErrorResponse :=
  let logged :=
    {| logged_fmt := "Exception in %s: %s"; logged_route := route;
       logged_error := error |} in
  let status_code :=
    if is_APIError error && code_is (code_of error) "content_filter" then 400
    else status_code in
  {| resp_logged := logged; resp_body := error_dict error; resp_status := status_code |}.

(** The kinds of message [error_dict] tells apart. *)
Inductive Category := ContentFilter | ContextLength | AzureService | Generic.

Definition category (error : Exception) : Category :=
  if is_APIError error && code_is (code_of error) "content_filter" then ContentFilter
  else if is_APIError error && code_is (code_of error) "context_length_exceeded"
       then ContextLength
  else if is_HttpResponseError error then AzureService
  else Generic.

End ErrorResponse.

Module ErrorResponseProps.
Import PyStr Error ErrorResponse.

(** [s.startswith(pre)]. *)
Fixpoint starts_with (pre s : string) : bool :=
  match pre, s with
  | EmptyString, _ => true
  | String a pre', String b s' => Ascii.eqb a b && starts_with pre' s'
  | String _ _, EmptyString => false
  end.

(** The category of a message, read off its text alone. *)
Definition category_of_message (msg : string) : Category :=
  if String.eqb msg ERROR_MESSAGE_FILTER then ContentFilter
  else if String.eqb msg ERROR_MESSAGE_LENGTH then ContextLength
  else if starts_with "Azure service error: " msg then AzureService
  else Generic.

Lemma category_of_azure_message message error_type :
  category_of_message (ERROR_MESSAGE_AZURE message error_type) = AzureService.
Proof. reflexivity. Qed.

Lemma category_of_generic_message error_type :
  category_of_message (ERROR_MESSAGE error_type) = Generic.
Proof. reflexivity. Qed.

Lemma lookup_error_dict error :
  exists msg, error_dict error = {[ "error" := msg ]} /\
              category_of_message msg = category error.
Proof.
  unfold error_dict, category.
  destruct (is_APIError error && code_is (code_of error) "content_filter");
    [eexists; split; reflexivity|].
  destruct (is_APIError error && code_is (code_of error) "context_length_exceeded");
    [eexists; split; reflexivity|].
  destruct (is_HttpResponseError error); eexists; (split; [reflexivity|]).
  - apply category_of_azure_message.
  - apply category_of_generic_message.
Qed.

Lemma singleton_error_inj (a b : string) :
  ({[ "error" := a ]} : gmap string string) = {[ "error" := b ]} -> a = b.
Proof.
  intros H. apply (f_equal (fun m : gmap string string => m !! "error")) in H.
  rewrite !lookup_singleton_eq in H. congruence.
Qed.

(** X1. The text under ["error"] tells the four kinds of error apart: two
    exceptions with the same dict are of the same kind (content filter,
    context length, Azure service, anything else). *)
Theorem error_dict_separates_categories (e1 e2 : Exception) :
  error_dict e1 = error_dict e2 -> category e1 = category e2.
Proof.
  destruct (lookup_error_dict e1) as (m1 & -> & <-).
  destruct (lookup_error_dict e2) as (m2 & -> & <-).
  intros H. apply singleton_error_inj in H. congruence.
Qed.

Lemma error_dict_separates_categories_witness :
  category (APIError {| cls_module := "openai"; cls_name := "BadRequestError" |}
              (Some "content_filter")) =
  category (APIError {| cls_module := "openai"; cls_name := "APIError" |}
              (Some "content_filter")).
Proof.
  apply error_dict_separates_categories. reflexivity.
Defined.

(** X2. The status [error_response] returns goes with its body: a body
    carrying the content-filter message has status 400, whatever status
    was asked for, and every other body has the status that was passed. *)
Theorem error_response_status (error : Exception) (route : string) (status_code : Z) :
  let r := error_response error route status_code in
  resp_body r = error_dict error /\
  (resp_body r !! "error" = Some ERROR_MESSAGE_FILTER -> resp_status r = 400) /\
  (resp_body r !! "error" <> Some ERROR_MESSAGE_FILTER -> resp_status r = status_code).
Proof.
  intros r. split; [reflexivity|].
  destruct (lookup_error_dict error) as (msg & Hd & Hc).
  subst r. unfold error_response. cbn [resp_body resp_status].
  rewrite Hd, lookup_singleton_eq. unfold category in Hc.
  destruct (is_APIError error && code_is (code_of error) "content_filter").
  - split; [reflexivity|]. intros H. exfalso. apply H.
    unfold category_of_message in Hc.
    destruct (String.eqb msg ERROR_MESSAGE_FILTER) eqn:E.
    + apply String.eqb_eq in E. congruence.
    + destruct (String.eqb msg ERROR_MESSAGE_LENGTH); [discriminate|].
      destruct (starts_with "Azure service error: " msg); discriminate.
  - split; [|reflexivity]. intros [= ->]. exfalso.
    destruct (is_APIError error && code_is (code_of error) "context_length_exceeded");
      [discriminate Hc|].
    destruct (is_HttpResponseError error); discriminate Hc.
Qed.

Lemma error_response_status_witness :
  resp_status
    (error_response
       (APIError {| cls_module := "openai"; cls_name := "BadRequestError" |}
          (Some "content_filter")) "/chat" 500) = 400 /\
  resp_status
    (error_response
       (APIError {| cls_module := "openai"; cls_name := "RateLimitError" |}
          (Some "rate_limit_exceeded")) "/chat" 500) = 500.
Proof.
  split.
  - apply (error_response_status
             (APIError {| cls_module := "openai"; cls_name := "BadRequestError" |}
                (Some "content_filter")) "/chat" 500).
    reflexivity.
  - apply (error_response_status
             (APIError {| cls_module := "openai"; cls_name := "RateLimitError" |}
                (Some "rate_limit_exceeded")) "/chat" 500).
    vm_compute. discriminate.
Defined.

End ErrorResponseProps.

(** ** Selecting and naming the entries *)

Module SelectionProps.
Import PyStr Py ZipProcessor LimitProps JobLimitProps.

Lemma contains_append c (s t : string) :
  contains c (s +:+ t) = contains c s || contains c t.
Proof.
  induction s as [|a s IH]; [reflexivity|].
  change (contains c (String a (s +:+ t)) = contains c (String a s) || contains c t).
  cbn [contains]. rewrite IH. apply orb_assoc.
Qed.

(** Replacing [d] by a text without [c] neither adds nor removes a [c]
    other than [d]. *)
Lemma contains_replace c d by_ s :
  Ascii.eqb d c = false -> contains c by_ = false ->
  contains c (replace d by_ s) = contains c s.
Proof.
  intros Hdc Hby. induction s as [|a s IH]; [reflexivity|].
  cbn [replace contains]. destruct (Ascii.eqb a d) eqn:Ead.
  - apply Ascii.eqb_eq in Ead. subst a. rewrite contains_append, Hby, IH, Hdc.
    reflexivity.
  - cbn [contains]. rewrite IH. reflexivity.
Qed.

(** After replacing [c] by a text without [c], no [c] is left. *)
Lemma contains_replace_self c by_ s :
  contains c by_ = false -> contains c (replace c by_ s) = false.
Proof.
  intros Hby. induction s as [|a s IH]; [reflexivity|].
  cbn [replace]. destruct (Ascii.eqb a c) eqn:Eac.
  - rewrite contains_append, Hby, IH. reflexivity.
  - cbn [contains]. rewrite Eac, IH. reflexivity.
Qed.

Lemma contains_lstrip c d s :
  Ascii.eqb d c = false -> contains c (lstrip d s) = contains c s.
Proof.
  intros Hdc. induction s as [|a s IH]; [reflexivity|].
  cbn [lstrip]. destruct (Ascii.eqb a d) eqn:Ead; [|reflexivity].
  apply Ascii.eqb_eq in Ead. subst a. cbn [contains]. rewrite Hdc, IH. reflexivity.
Qed.

Lemma lstrip_head c s r : lstrip c s <> String c r.
Proof.
  induction s as [|a s IH]; [discriminate|].
  cbn [lstrip]. destruct (Ascii.eqb a c) eqn:Eac; [exact IH|].
  intros [= -> _]. rewrite Ascii.eqb_refl in Eac. discriminate.
Qed.

(** X3. Every selected entry is normalized: its relative path has no
    backslash and does not start with a slash, and its flattened key is the
    archive basename, two underscores and a tail with neither a slash nor a
    backslash, so the key is single-level whenever the basename is. *)
Theorem selected_entries_normalized (low : Lower) (supported : gset string)
    (zip_basename : string) (members : list string) (name rel_path key : string) :
  (name, rel_path, key) ∈ to_process_of low supported zip_basename members ->
  contains "\" rel_path = false /\
  (forall r, rel_path <> String "/" r) /\
  exists tail,
    key = zip_basename +:+ "__" +:+ tail /\
    contains "/" tail = false /\ contains "\" tail = false.
Proof.
  intros H. apply elem_of_to_process in H as (_ & -> & _ & ->).
  assert (Hb : contains "\" (rel_path_of name) = false).
  { unfold rel_path_of. rewrite contains_lstrip by reflexivity.
    apply contains_replace_self. reflexivity. }
  split; [exact Hb|]. split; [intros r; apply lstrip_head|].
  exists (replace "/" "__" (rel_path_of name)). split; [reflexivity|]. split.
  - apply contains_replace_self. reflexivity.
  - rewrite contains_replace by reflexivity. exact Hb.
Qed.

Lemma selected_entries_normalized_witness :
  exists tail,
    "proj__src__app.tsx" = "proj" +:+ "__" +:+ tail /\
    contains "/" tail = false /\ contains "\" tail = false.
Proof.
  destruct (selected_entries_normalized ascii_lowering {[ ".tsx" ]} "proj" ["\src\app.tsx"]
              "\src\app.tsx" "src/app.tsx" "proj__src__app.tsx") as (_ & _ & H).
  - vm_compute. apply list_elem_of_here.
  - exact H.
Defined.

(** A member is eligible when its lower-cased extension is a registered
    key. *)
Definition eligible (low : Lower) (supported : gset string) (name : string) : bool :=
  bool_decide (lower low (splitext_ext (rel_path_of name)) ∈ supported).

(** The entry built from a member name. *)
Definition entry_of (zip_basename name : string) : string * string * string :=
  (name, rel_path_of name, flattened_key zip_basename (rel_path_of name)).

Lemma to_process_of_filter low supported zip_basename members :
  to_process_of low supported zip_basename members =
    entry_of zip_basename <$> List.filter (eligible low supported) members.
Proof.
  unfold to_process_of, eligible, entry_of.
  induction members as [|m members IH]; [reflexivity|].
  cbn [omap list_omap List.filter]. cbv zeta.
  destruct (bool_decide _); cbn [fmap list_fmap]; [f_equal|]; exact IH.
Qed.

Lemma filter_length_le {A} (f : A -> bool) (l : list A) :
  (length (List.filter f l) <= length l)%nat.
Proof. induction l as [|x l IH]; cbn; [lia|]. destruct (f x); cbn; lia. Qed.

(** X4. The entries to process are the eligible members in the order of
    the archive listing, one per occurrence: their names are the listing
    filtered, there are no more of them than members, and listing two
    archives one after the other gives the entries of the first followed
    by those of the second. *)
Theorem to_process_keeps_order (low : Lower) (supported : gset string)
    (zip_basename : string) (members more : list string) :
  (to_process_of low supported zip_basename members).*1.*1 =
    List.filter (eligible low supported) members /\
  len (to_process_of low supported zip_basename members) <= len members /\
  to_process_of low supported zip_basename (members ++ more) =
    to_process_of low supported zip_basename members ++
    to_process_of low supported zip_basename more.
Proof.
  rewrite !to_process_of_filter. split; [|split].
  - rewrite <- !list_fmap_compose. unfold entry_of. cbn.
    induction (List.filter (eligible low supported) members) as [|x l IH];
      [reflexivity|]. cbn. f_equal. exact IH.
  - unfold len. rewrite length_fmap.
    pose proof (filter_length_le (eligible low supported) members). lia.
  - rewrite List.filter_app, fmap_app. reflexivity.
Qed.

End SelectionProps.

(** ** Extensions and basenames *)

Module ExtensionProps.
Import PyStr Py ZipProcessor LimitProps JobLimitProps SelectionProps.

Lemma rfind_from_absent c s i : contains c s = false -> rfind_from c s i = -1.
Proof.
  revert i. induction s as [|a s IH]; intros i H; [reflexivity|].
  cbn [contains] in H. apply orb_false_iff in H as [Ha Hs].
  cbn [rfind_from]. rewrite (IH _ Hs), Ha. reflexivity.
Qed.

Lemma rfind_from_lower c s : forall i, 0 <= i -> -1 <= rfind_from c s i.
Proof.
  induction s as [|a s IH]; intros i Hi; cbn [rfind_from]; [lia|].
  specialize (IH (i + 1) ltac:(lia)).
  destruct (0 <=? rfind_from c s (i + 1)); [exact IH|].
  destruct (Ascii.eqb a c); lia.
Qed.

(** A path without a dot has no extension. *)
Lemma splitext_ext_dotless p : contains "." p = false -> splitext_ext p = EmptyString.
Proof.
  intros H. unfold splitext_ext, rfind. rewrite (rfind_from_absent "." p 0 H).
  pose proof (rfind_from_lower "/" p 0 ltac:(lia)) as Hs.
  destruct (rfind_from "/" p 0 <? -1) eqn:E; [apply Z.ltb_lt in E; lia | reflexivity].
Qed.

(** X6. A member whose name has no dot has the empty extension: it is
    selected only when a processor is registered under the empty key. *)
Theorem dotless_names_not_selected (low : Lower) (supported : gset string)
    (zip_basename : string) (members : list string) (name rel_path key : string) :
  contains "." name = false -> EmptyString ∉ supported ->
  (name, rel_path, key) ∉ to_process_of low supported zip_basename members.
Proof.
  intros Hdot Hempty H. apply elem_of_to_process in H as (_ & -> & Hext & _).
  rewrite splitext_ext_dotless in Hext;
    [rewrite lower_empty in Hext; exact (Hempty Hext)|].
  unfold rel_path_of. rewrite contains_lstrip by reflexivity.
  rewrite contains_replace by reflexivity. exact Hdot.
Qed.

Lemma dotless_names_not_selected_witness :
  ("src/Makefile", "src/Makefile", "proj__src__Makefile")
    ∉ to_process_of ascii_lowering {[ ".md"; ".tsx" ]} "proj"
        ["src/Makefile"; "README.md"].
Proof.
  apply dotless_names_not_selected; [reflexivity|].
  intros H. apply elem_of_union in H as [H | H];
    apply elem_of_singleton in H; discriminate.
Defined.

Lemma before_last_some c s : forall h,
  before_last c s = Some h ->
  exists t, s = h +:+ String c t /\ contains c t = false.
Proof.
  induction s as [|a s IH]; intros h H; [discriminate|].
  cbn [before_last] in H. destruct (before_last c s) as [h'|] eqn:E.
  - injection H as <-. destruct (IH h' eq_refl) as (t & -> & Ht).
    exists t. split; [reflexivity | exact Ht].
  - destruct (Ascii.eqb a c) eqn:Eac; [|discriminate].
    injection H as <-. apply Ascii.eqb_eq in Eac. subst a.
    exists s. split; [reflexivity|].
    clear IH. induction s as [|b s IHs]; [reflexivity|].
    cbn [before_last] in E. cbn [contains].
    destruct (before_last c s); [discriminate|].
    destruct (Ascii.eqb b c); [discriminate|]. apply IHs. reflexivity.
Qed.

Lemma before_last_none c s : before_last c s = None -> contains c s = false.
Proof.
  induction s as [|a s IH]; [reflexivity|].
  cbn [before_last contains]. destruct (before_last c s); [discriminate|].
  destruct (Ascii.eqb a c); [discriminate|]. intros _. apply IH. reflexivity.
Qed.

(** X7. The archive basename of a file name that is a [str]: with a dot in
    the name, the name is the basename, a dot and a suffix without a dot,
    so nothing but the last suffix is cut off; without a dot the basename
    is ["archive"]. Computing it changes nothing and never raises. *)
Theorem zip_basename_round_trip {W : Type} (filename : string) (st : St W) :
  exists zip_basename,
    zip_basename_of (JStr filename) st = (Returned zip_basename, st) /\
    if contains "." filename
    then exists suffix,
           filename = zip_basename +:+ "." +:+ suffix /\ contains "." suffix = false
    else zip_basename = "archive".
Proof.
  exists (basename_of filename). split; [apply zip_basename_of_str|].
  unfold basename_of, rsplit1_head.
  destruct (contains "." filename) eqn:Hdot; [|reflexivity].
  destruct (before_last "." filename) as [h|] eqn:E.
  - destruct (before_last_some _ _ _ E) as (t & Hs & Ht). exists t. split; assumption.
  - apply before_last_none in E. congruence.
Qed.

End ExtensionProps.

(** ** The snapshots of a run, with any number of failing entries *)

Module TraceProps.
Import PyStr Py ZipProcessor LoopProps ProgressProps.

Section PerFile.
Context {W : Type} (adls : AdlsBlobManager W) (ing : UploadUserFileStrategy W)
  (zf : ZipArchive) (upload_id : string) (user_oid : json) (total : Z).

Abbreviation turn := (process_entry adls ing zf upload_id user_oid total).
Abbreviation loop := (for_each adls ing zf upload_id user_oid total).
Abbreviation outcome_of := (outcome_of_entry adls ing zf upload_id user_oid total).
Abbreviation outcomes_of := (outcomes adls ing zf upload_id user_oid total).
Abbreviation snapshot := (snap upload_id user_oid total).

(** The keys of the entries whose turn did not fail in [ingest_entry]. *)
Fixpoint kept (l : list (string * string * string)) (os : list entry_outcome)
  : list string :=
  match l, os with
  | x :: l', Failed _ :: os' => kept l' os'
  | x :: l', _ :: os' => key_of x :: kept l' os'
  | _, _ => []
  end.

(** The snapshots pushed while the keys [ks] are appended one by one. *)
Fixpoint snaps_from (ids : list string) (done : Z) (ks : list string) : list Snapshot :=
  match ks with
  | [] => []
  | k :: ks' =>
      snapshot "processing" (ids ++ [k]) (done + 1) :: snaps_from (ids ++ [k]) (done + 1) ks'
  end.

Lemma kept_sublist l : forall os, kept l os `sublist_of` (key_of <$> l).
Proof.
  induction l as [|x l IH]; intros os; [destruct os; constructor|].
  destruct os as [|o os]; cbn [kept fmap list_fmap]; [apply sublist_nil_l|].
  destruct o; [apply sublist_skip | apply sublist_cons | apply sublist_skip]; apply IH.
Qed.

(** The loop, whatever its turns do: it returns, having appended the kept
    keys and pushed one snapshot per kept key. *)
Lemma loop_kept l : forall ids done (st : St W),
  let ks := kept l (outcomes_of (ids, done) l st) in
  exists st',
    loop (ids, done) l st = (Returned (ids ++ ks, done + len ks), st') /\
    progress_calls st' = progress_calls st ++ snaps_from ids done ks.
Proof.
  induction l as [|x l IH]; intros ids done st ks.
  - exists st. subst ks. cbn. rewrite !app_nil_r, Z.add_0_r. split; reflexivity.
  - subst ks. rewrite outcomes_cons. cbn [for_each]. unfold mbind, M_bind, bind.
    destruct (turn_spec adls ing zf upload_id user_oid total ids done x st) as (st1 & Ht).
    destruct (outcome_of (ids, done) x st) eqn:Ho; destruct Ht as [Ht Hc]; rewrite Ht.
    + destruct (IH (ids ++ [key_of x]) (done + 1) st1) as (st' & E & Hc').
      exists st'. cbn [kept snaps_from]. rewrite E, Hc', Hc. unfold len. cbn [length].
      rewrite <- !app_assoc. cbn [app]. split; [|reflexivity].
      do 3 f_equal. lia.
    + destruct (IH ids done st1) as (st' & E & Hc').
      exists st'. cbn [kept]. rewrite E, Hc', Hc. split; reflexivity.
    + destruct (IH (ids ++ [key_of x]) (done + 1) st1) as (st' & E & Hc').
      exists st'. cbn [kept snaps_from]. rewrite E, Hc', Hc. unfold len. cbn [length].
      rewrite <- !app_assoc. cbn [app]. split; [|reflexivity].
      do 3 f_equal. lia.
Qed.

Lemma snaps_from_length ids done ks : length (snaps_from ids done ks) = length ks.
Proof.
  revert ids done. induction ks as [|k ks IH]; intros ids done; [reflexivity|].
  cbn. rewrite IH. reflexivity.
Qed.

(** Each snapshot of the loop lists the keys kept so far. *)
Lemma snaps_from_lookup ks : forall ids done i s,
  snaps_from ids done ks !! i = Some s ->
  s = snapshot "processing" (ids ++ take (S i) ks) (done + Z.of_nat (S i)) /\
  (i < length ks)%nat.
Proof.
  induction ks as [|k ks IH]; intros ids done i s H; [discriminate|].
  destruct i as [|i]; cbn in H.
  - injection H as <-. cbn [take length]. rewrite take_0. split; [|lia].
    f_equal.
  - destruct (IH _ _ _ _ H) as (-> & Hi). split; [|cbn; lia].
    cbn [take]. rewrite <- app_assoc. cbn [app]. f_equal. lia.
Qed.

(** [process_entries] when its first snapshot is pushed. *)
Lemma process_entries_trace to_process (st st0 : St W) :
  progress adls (snapshot "processing" [] 0) st = (Returned tt, st0) ->
  let ks := kept to_process (outcomes_of ([], 0) to_process st0) in
  progress_calls
    (process_entries adls ing zf upload_id user_oid total to_process st).2 =
    progress_calls st ++
    snapshot "processing" [] 0 :: snaps_from [] 0 ks ++ [snapshot "completed" ks (len ks)].
Proof.
  intros H0 ks. unfold process_entries. fold (snap upload_id user_oid total "processing" [] 0).
  unfold mbind, M_bind, bind. rewrite H0.
  destruct (loop_kept to_process [] 0 st0) as (st1 & E & Hc). fold ks in E, Hc.
  cbn [app] in E. rewrite Z.add_0_l in E. rewrite E.
  fold (snap upload_id user_oid total "completed" ks (len ks)).
  rewrite progress_calls_after, Hc.
  pose proof (progress_calls_after adls (snapshot "processing" [] 0) st) as Hf.
  rewrite H0 in Hf. cbn [snd] in Hf. rewrite Hf, <- !app_assoc. reflexivity.
Qed.

(** [process_entries] when pushing its first snapshot raises. *)
Lemma process_entries_first_raises to_process (st st0 : St W) e :
  progress adls (snapshot "processing" [] 0) st = (Raised e, st0) ->
  process_entries adls ing zf upload_id user_oid total to_process st = (Raised e, st0) /\
  progress_calls st0 = progress_calls st ++ [snapshot "processing" [] 0].
Proof.
  intros H0. split.
  - unfold process_entries. fold (snap upload_id user_oid total "processing" [] 0).
    unfold mbind, M_bind, bind. rewrite H0. reflexivity.
  - pose proof (progress_calls_after adls (snapshot "processing" [] 0) st) as Hf.
    rewrite H0 in Hf. exact Hf.
Qed.

End PerFile.
End TraceProps.

Module RunProps.
Import PyStr Py ZipProcessor LoopProps ProgressProps TraceProps.

Section Job.
Context {W : Type} (rt : Runtime W).

(** Once the entries are selected, the calls of the job are those of
    [process_entries]. *)
Lemma job_calls_after_select upload_id filename user_oid (st st1 : St W)
    settings zf to_process :
  select_entries rt upload_id filename st = (Returned (settings, zf, to_process), st1) ->
  progress_calls (process_zip_job rt upload_id filename user_oid st).2 =
    progress_calls
      (process_entries (adls_manager settings) (ingester settings) zf upload_id user_oid
         (len to_process) to_process st1).2.
Proof.
  intros Hsel. rewrite process_zip_job_unfold, Hsel.
  destruct (process_entries _ _ _ _ _ _ _ _) as [[[]|e] st2]; cbn [snd];
    [apply call_calls | reflexivity].
Qed.

(** X8. With the entries selected and the first snapshot pushed, the job
    makes exactly these [upload_session_progress] calls, whatever number of
    entries fail: the first snapshot; one snapshot for each entry whose
    chunk read, upload and [add_file] went through, in order, each adding
    that entry's key; and the completed snapshot, which lists those keys
    and counts them. An entry is left out only when its turn failed before
    the key was appended; one whose own snapshot could not be pushed is
    still listed. *)
Theorem job_snapshots (upload_id : string) (filename user_oid : json)
    (st st1 st2 : St W) (settings : Settings W) (zf : ZipArchive)
    (to_process : list (string * string * string)) :
  let adls := adls_manager settings in
  let ing := ingester settings in
  let total := len to_process in
  select_entries rt upload_id filename st = (Returned (settings, zf, to_process), st1) ->
  progress adls (snap upload_id user_oid total "processing" [] 0) st1 = (Returned tt, st2) ->
  let ks := kept to_process
              (outcomes adls ing zf upload_id user_oid total ([], 0) to_process st2) in
  progress_calls (process_zip_job rt upload_id filename user_oid st).2 =
    progress_calls st ++
    snap upload_id user_oid total "processing" [] 0 ::
    snaps_from upload_id user_oid total [] 0 ks ++
    [snap upload_id user_oid total "completed" ks (len ks)] /\
  ks `sublist_of` (key_of <$> to_process) /\
  length (snaps_from upload_id user_oid total [] 0 ks) = length ks.
Proof.
  intros adls ing total Hsel Hfirst ks.
  split; [|split; [apply kept_sublist | apply snaps_from_length]].
  rewrite (job_calls_after_select _ _ _ _ _ _ _ _ Hsel).
  pose proof (select_entries_calls rt upload_id filename st) as Hc.
  rewrite Hsel in Hc. cbn [snd] in Hc. rewrite <- Hc.
  apply (process_entries_trace adls ing zf upload_id user_oid total to_process st1 st2 Hfirst).
Qed.

(** The calls of a job from a fresh state: none, the first snapshot alone,
    or the whole trace. *)
Lemma job_calls_shape upload_id filename user_oid (w : W) :
  let calls :=
    progress_calls (process_zip_job rt upload_id filename user_oid (initial w)).2 in
  calls = [] \/
  exists total ks,
    (length ks <= Z.to_nat total)%nat /\ 0 <= total /\
    (calls = [snap upload_id user_oid total "processing" [] 0] \/
     calls = snap upload_id user_oid total "processing" [] 0 ::
             snaps_from upload_id user_oid total [] 0 ks ++
             [snap upload_id user_oid total "completed" ks (len ks)]).
Proof.
  intros calls. subst calls.
  pose proof (select_entries_calls rt upload_id filename (initial w)) as Hc.
  destruct (select_entries rt upload_id filename (initial w))
    as [[[[settings zf] tp]|e] st1] eqn:Hsel; cbn [snd initial progress_calls] in Hc.
  - right. rewrite (job_calls_after_select _ _ _ _ _ _ _ _ Hsel).
    destruct (progress (adls_manager settings)
                (snap upload_id user_oid (len tp) "processing" [] 0) st1)
      as [[[]|e] st2] eqn:Hfirst.
    + exists (len tp),
        (kept tp (outcomes (adls_manager settings) (ingester settings) zf upload_id
                    user_oid (len tp) ([], 0) tp st2)).
      split; [|split; [unfold len; lia|]].
      * pose proof (sublist_length _ _ (kept_sublist tp
            (outcomes (adls_manager settings) (ingester settings) zf upload_id
               user_oid (len tp) ([], 0) tp st2))) as Hl.
        rewrite length_fmap in Hl. unfold len. rewrite Nat2Z.id. exact Hl.
      * right.
        rewrite (process_entries_trace _ _ _ _ _ _ _ _ _ Hfirst), Hc. reflexivity.
    + exists (len tp), []. split; [cbn; lia|]. split; [unfold len; lia|]. left.
      destruct (process_entries_first_raises (adls_manager settings) (ingester settings)
                  zf upload_id user_oid (len tp) tp st1 st2 e Hfirst) as [-> Hc1].
      cbn [snd]. rewrite Hc1, Hc. reflexivity.
  - left. rewrite process_zip_job_unfold, Hsel. exact Hc.
Qed.

(** X9. In every snapshot a job pushes, [files_done] lies between [0] and
    [files_total], there are as many ids as files done, and the status is
    ["processing"] or ["completed"]. *)
Theorem snapshot_counts_bounded (upload_id : string) (filename user_oid : json)
    (w : W) (s : Snapshot) :
  s ∈ progress_calls (process_zip_job rt upload_id filename user_oid (initial w)).2 ->
  0 <= files_done s <= files_total s /\
  len (indexed_ids s) = files_done s /\
  (status s = "processing" \/ status s = "completed").
Proof.
  intros Hin.
  destruct (job_calls_shape upload_id filename user_oid w)
    as [E | (total & ks & Hks & Htotal & [E | E])];
    cbv zeta in E; rewrite E in Hin; clear E.
  - inversion Hin.
  - apply list_elem_of_singleton in Hin. subst s. cbn. split; [lia|]. auto.
  - apply elem_of_cons in Hin as [-> | Hin]; [cbn; split; [lia | auto]|].
    apply elem_of_app in Hin as [Hin | Hin].
    + apply list_elem_of_lookup in Hin as [i Hi].
      apply snaps_from_lookup in Hi as [-> Hi]. cbn [snap files_done files_total
        indexed_ids status app]. split; [lia|]. split; [|auto].
      unfold len. rewrite length_take. lia.
    + apply list_elem_of_singleton in Hin. subst s. cbn. unfold len.
      split; [lia | auto].
Qed.

End Job.

(** Four markdown files: the upload of the second and the indexing of the
    third fail. *)
Definition rt_two_failures : Runtime (list string) :=
  Fixtures.runtime_for Fixtures.some_chunks ["a.md"; "b.md"; "c.md"; "docs/d.md"]
    "proj__b.md" "c.md".

Lemma job_snapshots_witness :
  (fun s => (status s, files_done s, indexed_ids s)) <$>
    progress_calls
      (process_zip_job rt_two_failures "3f2a" (JStr "proj.zip") (JStr "user-1")
         (initial [])).2 =
  [("processing", 0, []);
   ("processing", 1, ["proj__a.md"]);
   ("processing", 2, ["proj__a.md"; "proj__docs__d.md"]);
   ("completed", 2, ["proj__a.md"; "proj__docs__d.md"])].
Proof.
  edestruct (job_snapshots rt_two_failures "3f2a" (JStr "proj.zip") (JStr "user-1")
               (initial [])) as (H & _ & _).
  - vm_compute. reflexivity.
  - vm_compute. reflexivity.
  - rewrite H. vm_compute. reflexivity.
Defined.

Lemma snapshot_counts_bounded_witness :
  let final :=
    {| snap_upload_id := "3f2a"; status := "completed"; files_total := 4;
       files_done := 2; indexed_ids := ["proj__a.md"; "proj__docs__d.md"];
       snap_user_oid := JStr "user-1" |} in
  last (progress_calls
          (process_zip_job rt_two_failures "3f2a" (JStr "proj.zip") (JStr "user-1")
             (initial [])).2) = Some final /\
  (0 <= files_done final <= files_total final).
Proof.
  intros final. split; [vm_compute; reflexivity|].
  destruct (snapshot_counts_bounded rt_two_failures "3f2a" (JStr "proj.zip")
              (JStr "user-1") [] final) as [H _]; [|exact H].
  apply list_elem_of_lookup. exists 3%nat. vm_compute. reflexivity.
Defined.

End RunProps.

(** ** How a job ends *)

Module RunEndProps.
Import PyStr Py ZipProcessor LoopProps ProgressProps TraceProps RunProps.

Section Job.
Context {W : Type} (rt : Runtime W).

(** X10. A snapshot with status ["completed"] is the last call of its
    job: nothing is pushed after it, and no job pushes two. *)
Theorem completed_is_last (upload_id : string) (filename user_oid : json)
    (w : W) (i : nat) (s : Snapshot) :
  let calls :=
    progress_calls (process_zip_job rt upload_id filename user_oid (initial w)).2 in
  calls !! i = Some s -> status s = "completed" -> S i = length calls.
Proof.
  intros calls Hi Hs. subst calls.
  destruct (job_calls_shape rt upload_id filename user_oid w)
    as [E | (total & ks & _ & _ & [E | E])];
    cbv zeta in E; rewrite E in Hi |- *; clear E.
  - discriminate.
  - destruct i; [|discriminate]. injection Hi as <-. discriminate.
  - destruct i as [|i]; [injection Hi as <-; discriminate|].
    rewrite lookup_cons in Hi. cbn [length]. rewrite length_app. cbn [length].
    destruct (decide (i < length (snaps_from upload_id user_oid total [] 0 ks))%nat)
      as [Hlt | Hge].
    + rewrite lookup_app_l in Hi by exact Hlt.
      apply snaps_from_lookup in Hi as [-> _]. discriminate.
    + rewrite lookup_app_r in Hi by lia.
      destruct (i - length (snaps_from upload_id user_oid total [] 0 ks))%nat eqn:Ed;
        [lia | discriminate].
Qed.



(** X12. A session without chunks ([None] or no bytes): the job raises a
    [ValueError] naming the session, in the state [get_session_chunks]
    left; no snapshot is pushed and the session is not deleted. *)
Theorem no_chunks_rejected (upload_id : string) (filename user_oid : json)
    (st : St W) (settings : Settings W) (w1 w2 : W) (data : option bytes) :
  get_settings rt (world st) = (Returned settings, w1) ->
  get_session_chunks (adls_manager settings) upload_id w1 = (Returned data, w2) ->
  data = None \/ data = Some [] ->
  process_zip_job rt upload_id filename user_oid st =
    (Raised (ValueError ("No chunks found for session " +:+ upload_id)),
     with_world st w2).
Proof.
  intros Hsettings Hchunks Hdata.
  rewrite process_zip_job_unfold. unfold select_entries.
  unfold mbind, M_bind, bind, call, raise.
  rewrite Hsettings. cbn [world]. rewrite Hchunks.
  destruct Hdata as [-> | ->]; reflexivity.
Qed.

(** X13. An archive that cannot be opened: with chunks within the size
    limit and a [str] file name, the exception of [zipfile.ZipFile] is the
    job's, in the state [get_session_chunks] left; no snapshot is pushed
    and the session is not deleted. *)
Theorem unreadable_archive_rejected (upload_id filename : string) (user_oid : json)
    (st : St W) (settings : Settings W) (w1 w2 : W) (data : bytes) (e : exn) :
  get_settings rt (world st) = (Returned settings, w1) ->
  get_session_chunks (adls_manager settings) upload_id w1 = (Returned (Some data), w2) ->
  data <> [] -> len data <= MAX_ZIP_SIZE_BYTES ->
  ZipFile rt data = Raised e ->
  process_zip_job rt upload_id (JStr filename) user_oid st = (Raised e, with_world st w2).
Proof.
  intros Hsettings Hchunks Hdata Hlen Hzip.
  rewrite process_zip_job_unfold. unfold select_entries.
  unfold mbind at 1 2, M_bind at 1 2, bind at 1 2, call.
  rewrite Hsettings. cbn [world]. rewrite Hchunks.
  rewrite (no_data_cons _ Hdata). cbn [default from_option id world progress_calls log].
  apply Z.ltb_ge in Hlen. rewrite Hlen.
  unfold mbind at 1, M_bind at 1, bind at 1.
  rewrite zip_basename_of_str.
  unfold mbind, M_bind, bind, lift. rewrite Hzip. reflexivity.
Qed.

End Job.
End RunEndProps.

Module RunEndWitnesses.
Import PyStr Py ZipProcessor LoopProps ProgressProps TraceProps RunProps RunEndProps
  Fixtures.

Lemma completed_is_last_witness :
  length (progress_calls
            (process_zip_job rt_two_failures "3f2a" (JStr "proj.zip") (JStr "user-1")
               (initial [])).2) = 4%nat.
Proof.
  symmetry.
  apply (completed_is_last rt_two_failures "3f2a" (JStr "proj.zip") (JStr "user-1") []
           3%nat
           {| snap_upload_id := "3f2a"; status := "completed"; files_total := 4;
              files_done := 2; indexed_ids := ["proj__a.md"; "proj__docs__d.md"];
              snap_user_oid := JStr "user-1" |});
    [vm_compute; reflexivity | reflexivity].
Defined.


Lemma no_chunks_rejected_witness :
  (process_zip_job (runtime_for None ["a.md"] EmptyString EmptyString)
     "3f2a" (JStr "proj.zip") (JStr "user-1") (initial [])).1
    = Raised (ValueError "No chunks found for session 3f2a") /\
  process_zip_job (runtime_for (Some []) ["a.md"] EmptyString EmptyString)
    "3f2a" (JStr "proj.zip") (JStr "user-1") (initial [])
    = (Raised (ValueError "No chunks found for session 3f2a"),
       {| world := ["get_settings"; "get_session_chunks 3f2a"];
          progress_calls := []; log := [] |}).
Proof.
  split.
  - rewrite (no_chunks_rejected (runtime_for None ["a.md"] EmptyString EmptyString)
               "3f2a" (JStr "proj.zip") (JStr "user-1") (initial [])
               {| adls_manager := adls_for None EmptyString;
                  ingester := ingester_for EmptyString |}
               ["get_settings"] ["get_settings"; "get_session_chunks 3f2a"] None
               eq_refl eq_refl (or_introl eq_refl)).
    reflexivity.
  - rewrite (no_chunks_rejected (runtime_for (Some []) ["a.md"] EmptyString EmptyString)
               "3f2a" (JStr "proj.zip") (JStr "user-1") (initial [])
               {| adls_manager := adls_for (Some []) EmptyString;
                  ingester := ingester_for EmptyString |}
               ["get_settings"] ["get_settings"; "get_session_chunks 3f2a"] (Some [])
               eq_refl eq_refl (or_intror eq_refl)).
    reflexivity.
Defined.

(** A runtime whose chunks are not a zip archive. *)
Definition rt_not_a_zip : Runtime (list string) :=
  {| get_settings :=
       noted "get_settings"
         (Returned {| adls_manager := adls_for some_chunks EmptyString;
                      ingester := ingester_for EmptyString |});
     ZipFile := fun _ => Raised (Exn "BadZipFile" "File is not a zip file");
     decode_utf8 := fun raw => Returned (string_of_list_byte raw);
     json_loads := loads;
     str_lower := ascii_lowering |}.

Lemma unreadable_archive_rejected_witness :
  process_zip_job rt_not_a_zip "3f2a" (JStr "proj.zip") (JStr "user-1") (initial [])
    = (Raised (Exn "BadZipFile" "File is not a zip file"),
       {| world := ["get_settings"; "get_session_chunks 3f2a"];
          progress_calls := []; log := [] |}).
Proof.
  rewrite (unreadable_archive_rejected rt_not_a_zip "3f2a" "proj.zip" (JStr "user-1")
             (initial [])
             {| adls_manager := adls_for some_chunks EmptyString;
                ingester := ingester_for EmptyString |}
             ["get_settings"] ["get_settings"; "get_session_chunks 3f2a"]
             [Byte.x50; Byte.x4b; Byte.x03; Byte.x04]
             (Exn "BadZipFile" "File is not a zip file")
             eq_refl eq_refl ltac:(discriminate) ltac:(vm_compute; discriminate) eq_refl).
  reflexivity.
Defined.

End RunEndWitnesses.

(** ** More on the trigger handler *)

Module TriggerMoreProps.
Import PyStr Py ZipProcessor UploadIdProps TriggerProps SelectionProps.

Lemma rstrip_absent c s : contains c s = false -> rstrip c s = s.
Proof.
  induction s as [|a s IH]; [reflexivity|].
  cbn [contains rstrip]. intros H. apply orb_false_iff in H as [Ha Hs].
  rewrite (IH Hs), Ha. destruct s; reflexivity.
Qed.

Lemma rstrip_append c s t :
  rstrip c t <> EmptyString -> rstrip c (s +:+ t) = s +:+ rstrip c t.
Proof.
  intros Ht. induction s as [|a s IH]; [reflexivity|].
  change (rstrip c (String a (s +:+ t)) = String a (s +:+ rstrip c t)).
  cbn [rstrip]. rewrite IH.
  destruct (s +:+ rstrip c t) eqn:E; [|reflexivity].
  destruct s; [contradiction | discriminate].
Qed.

Lemma lstrip_append c s t :
  lstrip c (s +:+ t) =
    match lstrip c s with
    | EmptyString => lstrip c t
    | r => r +:+ t
    end.
Proof.
  induction s as [|a s IH]; [reflexivity|].
  change (lstrip c (String a (s +:+ t)) =
          match lstrip c (String a s) with EmptyString => lstrip c t | r => r +:+ t end).
  cbn [lstrip]. destruct (Ascii.eqb a c); [exact IH | reflexivity].
Qed.

Lemma lstrip_absent_head c a s : Ascii.eqb a c = false -> lstrip c (String a s) = String a s.
Proof. intros H. cbn [lstrip]. rewrite H. reflexivity. Qed.

Lemma replace_append c by_ s t :
  replace c by_ (s +:+ t) = replace c by_ s +:+ replace c by_ t.
Proof.
  induction s as [|a s IH]; [reflexivity|].
  change (replace c by_ (String a (s +:+ t)) = replace c by_ (String a s) +:+ replace c by_ t).
  cbn [replace]. rewrite IH. destruct (Ascii.eqb a c); [|reflexivity].
  clear. induction by_ as [|b by_ IHb]; [reflexivity|].
  change (String b (by_ +:+ (replace c (String b by_) s +:+ replace c (String b by_) t)) =
          String b ((by_ +:+ replace c (String b by_) s) +:+ replace c (String b by_) t)).
  f_equal. clear IHb. generalize (replace c (String b by_) s) as x.
  generalize (replace c (String b by_) t) as y. intros y x.
  induction by_ as [|d by_ IHd]; [reflexivity|].
  change (String d (by_ +:+ (x +:+ y)) = String d ((by_ +:+ x) +:+ y)).
  f_equal. exact IHd.
Qed.

Lemma replace_absent c by_ s : contains c s = false -> replace c by_ s = s.
Proof.
  induction s as [|a s IH]; [reflexivity|].
  cbn [contains replace]. intros H. apply orb_false_iff in H as [Ha Hs].
  rewrite Ha, (IH Hs). reflexivity.
Qed.

Lemma split_absent c s : contains c s = false -> split c s = [s].
Proof.
  induction s as [|a s IH]; [reflexivity|].
  cbn [contains split]. intros H. apply orb_false_iff in H as [Ha Hs].
  rewrite Ha, (IH Hs). reflexivity.
Qed.

Lemma split_append c s t :
  split c (s +:+ String c t) = split c s ++ split c t.
Proof.
  induction s as [|a s IH].
  - change (split c (String c t) = [EmptyString] ++ split c t).
    cbn [split]. rewrite Ascii.eqb_refl. reflexivity.
  - change (split c (String a (s +:+ String c t)) = split c (String a s) ++ split c t).
    cbn [split]. rewrite IH. destruct (Ascii.eqb a c); [reflexivity|].
    pose proof (split_not_nil c s) as Hne.
    destruct (split c s) as [|h l]; [contradiction | reflexivity].
Qed.

Lemma append_assoc (s t u : string) : (s +:+ t) +:+ u = s +:+ (t +:+ u).
Proof.
  induction s as [|a s IH]; [reflexivity|].
  change (String a ((s +:+ t) +:+ u) = String a (s +:+ (t +:+ u))). f_equal. exact IH.
Qed.

(** A text without separators, as a session id or a file name is. *)
Definition plain (s : string) : Prop :=
  s <> EmptyString /\ contains "/" s = false /\ contains "\" s = false.

(** X14. For a trigger path that ends in a session id and a file name,
    such as [user-content/_sessions/<id>/_job.json], the upload id is the
    session id, whatever comes before it (leading slashes and backslash
    separators included). *)
Theorem upload_id_of_trigger_path (before id file : string) :
  plain id -> plain file ->
  upload_id_of (parts_of (before +:+ "/" +:+ id +:+ "/" +:+ file)) = id.
Proof.
  intros (Hid & Hid1 & Hid2) (Hfile & Hfile1 & Hfile2).
  unfold parts_of.
  rewrite !replace_append, (replace_absent "\" "/" id Hid2),
    (replace_absent "\" "/" file Hfile2).
  change (replace "\" "/" "/") with "/".
  set (p := replace "\" "/" before).
  assert (Hstrip : exists r,
            strip "/" (p +:+ "/" +:+ id +:+ "/" +:+ file) = r +:+ String "/" file /\
            exists pre, split "/" r = pre ++ [id]).
  { unfold strip. rewrite lstrip_append.
    assert (Hr : rstrip "/" (String "/" file) = String "/" file).
    { cbn [rstrip]. rewrite (rstrip_absent _ _ Hfile1).
      destruct file; [contradiction | reflexivity]. }
    assert (Hkeep : forall x, rstrip "/" (x +:+ String "/" file) = x +:+ String "/" file).
    { intros x. rewrite rstrip_append; rewrite Hr; [reflexivity | discriminate]. }
    destruct (lstrip "/" p) as [|a q] eqn:Ep.
    - exists id. split; [|exists []; apply split_absent; exact Hid1].
      change ("/" +:+ id +:+ "/" +:+ file) with (String "/" (id +:+ String "/" file)).
      cbn [lstrip]. cbn [Ascii.eqb Bool.eqb].
      destruct id as [|b id']; [contradiction|].
      cbn [contains] in Hid1. apply orb_false_iff in Hid1 as [Hb _].
      change (String b id' +:+ String "/" file) with (String b (id' +:+ String "/" file)).
      rewrite lstrip_absent_head by exact Hb.
      apply (Hkeep (String b id')).
    - exists (String a q +:+ String "/" id). split.
      + rewrite <- (Hkeep (String a q +:+ String "/" id)).
        rewrite !append_assoc. reflexivity.
      + exists (split "/" (String a q)).
        rewrite split_append, (split_absent _ _ Hid1). reflexivity. }
  destruct Hstrip as (r & -> & pre & Hpre).
  rewrite split_append, Hpre, (split_absent _ _ Hfile1), <- app_assoc.
  apply upload_id_of_snoc2.
Qed.

Lemma upload_id_of_trigger_path_witness :
  upload_id_of (parts_of "\user-content\_sessions/0b1c-77/_job.json") = "0b1c-77".
Proof.
  apply (upload_id_of_trigger_path "\user-content\_sessions" "0b1c-77" "_job.json");
    repeat split; discriminate.
Defined.

End TriggerMoreProps.

Module TriggerOutcomeProps.
Import PyStr Py ZipProcessor UploadIdProps TriggerProps SelectionProps TriggerMoreProps.

Lemma contains_rstrip_absent d c s : contains d s = false -> contains d (rstrip c s) = false.
Proof.
  induction s as [|a s IH]; [reflexivity|].
  cbn [contains rstrip]. intros H. apply orb_false_iff in H as [Ha Hs].
  specialize (IH Hs). destruct (rstrip c s) eqn:E.
  - destruct (Ascii.eqb a c); [reflexivity|]. cbn [contains]. rewrite Ha. reflexivity.
  - cbn [contains] in *. rewrite Ha. exact IH.
Qed.

Lemma contains_lstrip_absent d c s : contains d s = false -> contains d (lstrip c s) = false.
Proof.
  induction s as [|a s IH]; [reflexivity|].
  cbn [contains lstrip]. intros H. destruct (Ascii.eqb a c).
  - apply orb_false_iff in H as [_ Hs]. exact (IH Hs).
  - exact H.
Qed.

(** The fields of a split contain no separator, and no character that the
    text did not contain. *)
Lemma split_fields c d s :
  (d = c \/ contains d s = false) ->
  forall x, x ∈ split c s -> contains d x = false.
Proof.
  intros Hd. induction s as [|a s IH]; intros x Hx.
  - apply list_elem_of_singleton in Hx. subst x. reflexivity.
  - assert (Hd' : d = c \/ contains d s = false).
    { destruct Hd as [-> | H]; [left; reflexivity|].
      cbn [contains] in H. apply orb_false_iff in H as [_ H]. right. exact H. }
    specialize (IH Hd'). cbn [split] in Hx.
    destruct (Ascii.eqb a c) eqn:Eac.
    + apply elem_of_cons in Hx as [-> | Hx]; [reflexivity | exact (IH x Hx)].
    + pose proof (split_not_nil c s) as Hne.
      destruct (split c s) as [|h t]; [contradiction|].
      apply elem_of_cons in Hx as [-> | Hx].
      * cbn [contains]. rewrite (IH h (list_elem_of_here _ _)), orb_false_r.
        destruct Hd as [-> | H]; [exact Eac|].
        cbn [contains] in H. apply orb_false_iff in H as [H _]. exact H.
      * apply IH. apply list_elem_of_further. exact Hx.
Qed.

Lemma upload_id_of_elem parts : parts <> [] -> upload_id_of parts ∈ parts.
Proof.
  intros Hne. unfold upload_id_of.
  destruct (2 <=? len parts) eqn:E.
  - apply Z.leb_le in E. unfold len in E.
    destruct (parts !! (length parts - 2)%nat) as [x|] eqn:Hl.
    + cbn. apply list_elem_of_lookup. eauto.
    + apply lookup_ge_None in Hl. lia.
  - destruct parts; [contradiction | apply list_elem_of_here].
Qed.

(** X15. The upload id derived from a blob name never contains a slash or
    a backslash, whatever the name. *)
Theorem upload_id_has_no_separator (name : string) :
  contains "/" (upload_id_of (parts_of name)) = false /\
  contains "\" (upload_id_of (parts_of name)) = false.
Proof.
  pose proof (upload_id_of_elem (parts_of name) (split_not_nil _ _)) as Hin.
  unfold parts_of in *. split.
  - apply (split_fields "/" "/" _ (or_introl eq_refl) _ Hin).
  - apply (split_fields "/" "\" _) with (x := upload_id_of _) in Hin; [exact Hin|].
    right. unfold strip. apply contains_rstrip_absent, contains_lstrip_absent.
    apply contains_replace_self. reflexivity.
Qed.

Section Trigger.
Context {W : Type} (rt : Runtime W).

(** X16. When [zip_processor] raises: either the job body parsed to
    something that is not an object, and then it raises the
    [AttributeError] of [job.get] with nothing logged; or the descriptor
    was valid and [process_zip_job] raised, and then it raises that
    exception after logging it. In every other case it returns. *)
Theorem zip_processor_raises_iff (blob : InputStream) (st st' : St W) (e : exn) :
  zip_processor rt blob st = (Raised e, st') <->
  (exists job,
     parse_job rt blob = Returned job /\ (forall m, job <> JObj m) /\
     e = AttributeError ("'" +:+ type_name job +:+ "' object has no attribute 'get'") /\
     st' = st) \/
  (exists m filename user_oid st'',
     parse_job rt blob = Returned (JObj m) /\
     m !! "filename" = Some filename /\ truthy filename = true /\
     m !! "user_oid" = Some user_oid /\ truthy user_oid = true /\
     process_zip_job rt (upload_id_for blob) filename user_oid
       (logged st INFO "Processing zip job %s for user %s"
          [ArgStr (upload_id_for blob); ArgVal user_oid]) = (Raised e, st'') /\
     st' = logged st'' EXCEPTION "Failed zip job %s: %s"
             [ArgStr (upload_id_for blob); ArgExn e]).
Proof.
  split.
  - destruct (parse_job rt blob) as [job|e0] eqn:Hparse.
    + rewrite (zip_processor_parsed rt _ _ _ Hparse).
      unfold mbind, M_bind, bind, lift.
      destruct job as [| | | | | |m];
        try (intros [= <- <-]; left; eexists; split; [reflexivity|];
             split; [discriminate|]; split; reflexivity).
      cbn [job_get]. intros H. right.
      destruct (m !! "filename") as [filename|] eqn:Hf; cbn [default from_option id] in H;
        [|discriminate H].
      destruct (truthy filename) eqn:Tf; [|discriminate H].
      destruct (m !! "user_oid") as [user_oid|] eqn:Hu; cbn [default from_option id] in H;
        [|discriminate H].
      destruct (truthy user_oid) eqn:Tu; [|discriminate H].
      cbn [negb orb] in H. unfold emit, try_except, raise in H. cbn beta iota in H.
      fold (logged st INFO "Processing zip job %s for user %s"
              [ArgStr (upload_id_for blob); ArgVal user_oid]) in H.
      destruct (process_zip_job rt (upload_id_for blob) filename user_oid _)
        as [[[]|e1] st1] eqn:Hjob; [discriminate H|].
      injection H as <- <-.
      exists m, filename, user_oid, st1. repeat split; first [assumption | reflexivity].
    + rewrite (zip_processor_unparsed rt _ _ _ Hparse). discriminate.
  - intros [(job & Hparse & Hobj & -> & ->)
           | (m & filename & user_oid & st'' & Hparse & Hf & Tf & Hu & Tu & Hjob & ->)].
    + rewrite (zip_processor_parsed rt _ _ _ Hparse).
      unfold mbind, M_bind, bind, lift.
      destruct job; try reflexivity. exfalso. eapply Hobj. reflexivity.
    + rewrite (zip_processor_parsed rt _ _ _ Hparse).
      unfold mbind, M_bind, bind, lift, emit, try_except, raise. cbn [job_get].
      rewrite Hf, Hu. cbn [default from_option id]. rewrite Tf, Tu. cbn [negb orb].
      unfold logged in Hjob. rewrite Hjob. reflexivity.
Qed.

End Trigger.

(** A runtime whose job body parses to an empty list. *)
Definition rt_list_job : Runtime (list string) :=
  {| get_settings := Fixtures.noted "get_settings" (Raised (Exn "RuntimeError" "unused"));
     ZipFile := fun _ => Raised (Exn "BadZipFile" "File is not a zip file");
     decode_utf8 := fun raw => Returned (string_of_list_byte raw);
     json_loads := fun text =>
       if String.eqb text "[]" then Returned (JArr [])
       else Raised (Exn "JSONDecodeError" "Expecting value: line 1 column 1 (char 0)");
     str_lower := ascii_lowering |}.

Lemma zip_processor_raises_iff_witness :
  zip_processor rt_list_job
    (Fixtures.blob_of "user-content/_sessions/3f2a/_job.json" "[]") (initial []) =
  (Raised (AttributeError "'list' object has no attribute 'get'"), initial []).
Proof.
  apply (zip_processor_raises_iff rt_list_job).
  left. exists (JArr []). split; [reflexivity|]. split; [discriminate|].
  split; reflexivity.
Defined.

End TriggerOutcomeProps.

(** ** [get_settings] of [function_app.py] *)

Module GetSettings.
Import PyStr Py ZipProcessor.

(** [os.environ]. *)
Abbreviation environ := (gmap string string).

(** [os.environ.get(key, default)]. *)
Definition env_get (env : environ) (key default_ : string) : string :=
  default default_ (env !! key).

(** [os.environ.get(key, default).lower() == "true"]. *)
Definition env_flag (low : Lower) (env : environ) (key default_ : string) : bool :=
  String.eqb (lower low (env_get env key default_)) "true".

(** The value of [if X := os.environ.get(key)]: a non-empty string or
    nothing. *)
Definition env_truthy (env : environ) (key : string) : option string :=
  match env !! key with
  | Some s => if String.eqb s EmptyString then None else Some s
  | None => None
  end.

(** [f"{value}"] for a string or [None]. *)
Definition format_opt (value : option string) : string := default "None" value.

Section Services.
Context {W Credential Client Host Figure Search Emb ImgEmb : Type}.

(** The keyword arguments of [setup_openai_client]. *)
Record OpenAIClientArgs := {
  oc_openai_host : Host;
  oc_azure_credential : Credential;
  oc_azure_openai_service : option string;
  oc_azure_openai_custom_url : option string;
  oc_azure_openai_api_key : option string;
  oc_openai_api_key : option string;
  oc_openai_organization : option string }.

(** The keyword arguments of [setup_figure_processor]. *)
Record FigureArgs := {
  fa_credential : Credential;
  fa_use_multimodal : bool;
  fa_use_content_understanding : bool;
  fa_content_understanding_endpoint : option string;
  fa_openai_client : Client;
  fa_openai_model : option string;
  fa_openai_deployment : option string }.

(** The keyword arguments of [setup_search_info]. *)
Record SearchArgs := {
  sa_search_service : option string;
  sa_index_name : option string;
  sa_azure_credential : Credential;
  sa_use_agentic_knowledgebase : bool;
  sa_azure_openai_endpoint : option string;
  sa_knowledgebase_name : option string;
  sa_azure_openai_knowledgebase_deployment : option string;
  sa_azure_openai_knowledgebase_model : option string }.

(** The keyword arguments of [setup_embeddings_service]. *)
Record EmbeddingsArgs := {
  ea_open_ai_client : Client;
  ea_openai_host : Host;
  ea_emb_model_name : string;
  ea_emb_model_dimensions : Z;
  ea_azure_openai_deployment : option string;
  ea_azure_openai_endpoint : option string }.

(** The keyword arguments of [UploadUserFileStrategy]. *)
Record IngesterArgs := {
  ia_search_info : Search;
  ia_file_processors : gmap string FileProcessor;
  ia_embeddings : option Emb;
  ia_image_embeddings : ImgEmb;
  ia_search_field_name_embedding : string;
  ia_blob_manager : AdlsBlobManager W;
  ia_figure_processor : Figure }.

(** What [get_settings] calls: [int], [str.lower], the [OpenAIHost]
    enumeration and its comparison with [OpenAIHost.AZURE], and the
    constructors and setup functions of [azure.identity] and
    [prepdocslib]. *)
Record Services := {
  py_int : string -> outcome Z;
  py_lower : Lower;
  OpenAIHost : string -> outcome Host;
  is_azure : Host -> bool;
  ManagedIdentityCredential : option string -> action W Credential;
  setup_openai_client : OpenAIClientArgs -> action W (Client * option string);
  new_AdlsBlobManager : string -> option string -> Credential -> action W (AdlsBlobManager W);
  build_file_processors : Credential -> action W (gmap string FileProcessor);
  setup_figure_processor : FigureArgs -> action W Figure;
  setup_search_info : SearchArgs -> action W Search;
  setup_embeddings_service : EmbeddingsArgs -> action W Emb;
  setup_image_embeddings_service : Credential -> option string -> bool -> action W ImgEmb;
  new_UploadUserFileStrategy : IngesterArgs -> action W (UploadUserFileStrategy W) }.

(** The outside world and the attribute [get_settings._settings]. *)
Record State := {
  outside : W;
  cached : option (Settings W) }.

Definition Init (A : Type) : Type := State -> outcome A * State.

Definition iret {A} (a : A) : Init A := fun st => (Returned a, st).

Definition ibind {A B} (m : Init A) (k : A -> Init B) : Init B :=
  fun st =>
    match m st with
    | (Returned a, st') => k a st'
    | (Raised e, st') => (Raised e, st')
    end.

(** A value or exception of a pure call. *)
Definition pure_call {A} (o : outcome A) : Init A := fun st => (o, st).

(** A call of a constructor or setup function. *)
Definition ext_call {A} (f : action W A) : Init A :=
  fun st =>
    let '(o, w) := f (outside st) in
    (o, {| outside := w; cached := cached st |}).

(** [get_settings._settings = settings]. *)
Definition store (settings : Settings W) : Init unit :=
  fun st => (Returned tt, {| outside := outside st; cached := Some settings |}).

Context (sv : Services).

Definition get_settings (env : environ) : Init (Settings W) :=
  fun st =>
  match cached st with
  | Some settings => (Returned settings, st)
  | None =>
    (let AZURE_USERSTORAGE_ACCOUNT := env !! "AZURE_USERSTORAGE_ACCOUNT" in
     let AZURE_USERSTORAGE_CONTAINER := env !! "AZURE_USERSTORAGE_CONTAINER" in
     let AZURE_SEARCH_SERVICE := env !! "AZURE_SEARCH_SERVICE" in
     let AZURE_SEARCH_INDEX := env !! "AZURE_SEARCH_INDEX" in
     let AZURE_OPENAI_SERVICE := env !! "AZURE_OPENAI_SERVICE" in
     let AZURE_OPENAI_CHATGPT_DEPLOYMENT := env !! "AZURE_OPENAI_CHATGPT_DEPLOYMENT" in
     let AZURE_OPENAI_EMB_DEPLOYMENT := env !! "AZURE_OPENAI_EMB_DEPLOYMENT" in
     let AZURE_OPENAI_EMB_MODEL :=
       env_get env "AZURE_OPENAI_EMB_MODEL_NAME" "text-embedding-3-large" in
     ibind (pure_call (py_int sv (env_get env "AZURE_OPENAI_EMB_DIMENSIONS" "3072")))
       (fun AZURE_OPENAI_EMB_DIMENSIONS =>
     let AZURE_SEARCH_FIELD_NAME_EMBEDDING :=
       env_get env "AZURE_SEARCH_FIELD_NAME_EMBEDDING" "embedding" in
     let USE_MULTIMODAL := env_flag (py_lower sv) env "USE_MULTIMODAL" "false" in
     let USE_VECTORS := env_flag (py_lower sv) env "USE_VECTORS" "true" in
     ibind (pure_call (OpenAIHost sv (env_get env "OPENAI_HOST" "azure")))
       (fun OPENAI_HOST =>
     let AZURE_VISION_ENDPOINT := env !! "AZURE_VISION_ENDPOINT" in
     ibind (ext_call (ManagedIdentityCredential sv (env_truthy env "AZURE_CLIENT_ID")))
       (fun azure_credential =>
     ibind (ext_call (setup_openai_client sv
              {| oc_openai_host := OPENAI_HOST;
                 oc_azure_credential := azure_credential;
                 oc_azure_openai_service := AZURE_OPENAI_SERVICE;
                 oc_azure_openai_custom_url := env !! "AZURE_OPENAI_CUSTOM_URL";
                 oc_azure_openai_api_key := env !! "AZURE_OPENAI_API_KEY_OVERRIDE";
                 oc_openai_api_key := env !! "OPENAI_API_KEY";
                 oc_openai_organization := env !! "OPENAI_ORGANIZATION" |}))
       (fun '(openai_client, azure_openai_endpoint) =>
     ibind (ext_call (new_AdlsBlobManager sv
              ("https://" +:+ format_opt AZURE_USERSTORAGE_ACCOUNT +:+ ".dfs.core.windows.net")
              AZURE_USERSTORAGE_CONTAINER azure_credential))
       (fun user_blob_manager =>
     ibind (ext_call (build_file_processors sv azure_credential))
       (fun file_processors =>
     ibind (ext_call (setup_figure_processor sv
              {| fa_credential := azure_credential;
                 fa_use_multimodal := USE_MULTIMODAL;
                 fa_use_content_understanding :=
                   env_flag (py_lower sv) env "USE_CONTENT_UNDERSTANDING" EmptyString;
                 fa_content_understanding_endpoint :=
                   env !! "AZURE_CONTENTUNDERSTANDING_ENDPOINT";
                 fa_openai_client := openai_client;
                 fa_openai_model := env !! "AZURE_OPENAI_CHATGPT_MODEL";
                 fa_openai_deployment :=
                   if is_azure sv OPENAI_HOST then AZURE_OPENAI_CHATGPT_DEPLOYMENT
                   else None |}))
       (fun figure_processor =>
     ibind (ext_call (setup_search_info sv
              {| sa_search_service := AZURE_SEARCH_SERVICE;
                 sa_index_name := AZURE_SEARCH_INDEX;
                 sa_azure_credential := azure_credential;
                 sa_use_agentic_knowledgebase :=
                   env_flag (py_lower sv) env "USE_AGENTIC_KNOWLEDGEBASE" EmptyString;
                 sa_azure_openai_endpoint := azure_openai_endpoint;
                 sa_knowledgebase_name := env !! "AZURE_SEARCH_KNOWLEDGEBASE_NAME";
                 sa_azure_openai_knowledgebase_deployment :=
                   env !! "AZURE_OPENAI_KNOWLEDGEBASE_DEPLOYMENT";
                 sa_azure_openai_knowledgebase_model :=
                   env !! "AZURE_OPENAI_KNOWLEDGEBASE_MODEL" |}))
       (fun search_info =>
     ibind (if USE_VECTORS then
              ibind (ext_call (setup_embeddings_service sv
                       {| ea_open_ai_client := openai_client;
                          ea_openai_host := OPENAI_HOST;
                          ea_emb_model_name := AZURE_OPENAI_EMB_MODEL;
                          ea_emb_model_dimensions := AZURE_OPENAI_EMB_DIMENSIONS;
                          ea_azure_openai_deployment := AZURE_OPENAI_EMB_DEPLOYMENT;
                          ea_azure_openai_endpoint := azure_openai_endpoint |}))
                (fun service => iret (Some service))
            else iret None)
       (fun text_embeddings_service =>
     ibind (ext_call (setup_image_embeddings_service sv azure_credential
                        AZURE_VISION_ENDPOINT USE_MULTIMODAL))
       (fun image_embeddings_service =>
     ibind (ext_call (new_UploadUserFileStrategy sv
              {| ia_search_info := search_info;
                 ia_file_processors := file_processors;
                 ia_embeddings := text_embeddings_service;
                 ia_image_embeddings := image_embeddings_service;
                 ia_search_field_name_embedding := AZURE_SEARCH_FIELD_NAME_EMBEDDING;
                 ia_blob_manager := user_blob_manager;
                 ia_figure_processor := figure_processor |}))
       (fun ingester =>
     let settings := {| adls_manager := user_blob_manager; ingester := ingester |} in
     ibind (store settings) (fun _ => iret settings)))))))))))))
    st
  end.

End Services.

Arguments Services : clear implicits.
Arguments State : clear implicits.

End GetSettings.

Module GetSettingsProps.
Import PyStr Py ZipProcessor GetSettings.

Section Services.
Context {W Credential Client Host Figure Search Emb ImgEmb : Type}
  (sv : Services W Credential Client Host Figure Search Emb ImgEmb).

(** A computation that leaves [get_settings._settings] alone. *)
Definition keeps {A} (m : Init (W := W) A) : Prop :=
  forall st, cached (m st).2 = cached st.

(** A computation that stores what it returns, and nothing when it raises. *)
Definition stores (m : Init (W := W) (Settings W)) : Prop :=
  forall st,
    match m st with
    | (Returned s, st') => cached st' = Some s
    | (Raised _, st') => cached st' = cached st
    end.

Lemma keeps_pure {A} (o : outcome A) : keeps (pure_call o).
Proof. intros st. reflexivity. Qed.

Lemma keeps_ret {A} (a : A) : keeps (iret a).
Proof. intros st. reflexivity. Qed.

Lemma keeps_ext {A} (f : action W A) : keeps (ext_call f).
Proof. intros st. unfold ext_call. destruct (f (outside st)). reflexivity. Qed.

Lemma keeps_bind {A B} (m : Init A) (k : A -> Init B) :
  keeps m -> (forall a, keeps (k a)) -> keeps (ibind m k).
Proof.
  intros Hm Hk st. unfold ibind. specialize (Hm st).
  destruct (m st) as [[a|e] st1]; cbn [snd] in *; [|exact Hm].
  rewrite (Hk a st1). exact Hm.
Qed.

Lemma stores_bind {A} (m : Init A) (k : A -> Init (Settings W)) :
  keeps m -> (forall a, stores (k a)) -> stores (ibind m k).
Proof.
  intros Hm Hk st. unfold ibind. specialize (Hm st).
  destruct (m st) as [[a|e] st1]; cbn [snd] in *; [|exact Hm].
  specialize (Hk a st1). destruct (k a st1) as [[s|e] st2]; congruence.
Qed.

Lemma stores_store (s : Settings W) : stores (ibind (store s) (fun _ => iret s)).
Proof. intros st. reflexivity. Qed.

(** The first initialization stores what it returns and nothing else. *)
Lemma get_settings_stores env (st : State W) :
  cached st = None ->
  match get_settings sv env st with
  | (Returned s, st') => cached st' = Some s
  | (Raised _, st') => cached st' = None
  end.
Proof.
  intros Hnone. unfold get_settings. rewrite Hnone.
  match goal with |- match ?m st with _ => _ end =>
    assert (Hs : stores m); [|specialize (Hs st); destruct (m st) as [[s|e] st'];
                               congruence] end.
  repeat first
    [ apply stores_store
    | apply stores_bind;
      [ first [ apply keeps_pure | apply keeps_ext
              | destruct (env_flag (py_lower sv) env "USE_VECTORS" "true");
                [ apply keeps_bind; [apply keeps_ext | intros; apply keeps_ret]
                | apply keeps_ret ] ]
      | first [ intros [? ?] | intros ? ] ] ].
Qed.

(** X17. [get_settings] initializes once: after a call that returned, every
    later call returns the same settings, whatever the environment then
    holds, reads nothing, constructs nothing and changes nothing. *)
Theorem settings_initialized_once (env env' : environ) (st st1 : State W)
    (settings : Settings W) :
  get_settings sv env st = (Returned settings, st1) ->
  get_settings sv env' st1 = (Returned settings, st1).
Proof.
  intros H.
  assert (Hc : cached st1 = Some settings).
  { destruct (cached st) as [s0|] eqn:Hst.
    - unfold get_settings in H. rewrite Hst in H. injection H as <- <-. exact Hst.
    - pose proof (get_settings_stores env st Hst) as Hs. rewrite H in Hs. exact Hs. }
  unfold get_settings. rewrite Hc. reflexivity.
Qed.

(** X18. A call of [get_settings] that raises was a first initialization,
    and it stores nothing: the next call starts over. *)
Theorem failed_initialization_not_cached (env : environ) (st st1 : State W) (e : exn) :
  get_settings sv env st = (Raised e, st1) ->
  cached st = None /\ cached st1 = None.
Proof.
  intros H. destruct (cached st) as [s0|] eqn:Hst.
  - unfold get_settings in H. rewrite Hst in H. discriminate.
  - split; [reflexivity|].
    pose proof (get_settings_stores env st Hst) as Hs. rewrite H in Hs. exact Hs.
Qed.

(** X19. A first call with an [AZURE_OPENAI_EMB_DIMENSIONS] that [int]
    rejects, or an [OPENAI_HOST] that is no member of the enumeration,
    raises that error before any credential or client is constructed: the
    state is unchanged. *)
Theorem bad_environment_raises_early (env : environ) (st : State W) (e : exn) :
  cached st = None ->
  py_int sv (env_get env "AZURE_OPENAI_EMB_DIMENSIONS" "3072") = Raised e \/
  ((exists n, py_int sv (env_get env "AZURE_OPENAI_EMB_DIMENSIONS" "3072") = Returned n) /\
   OpenAIHost sv (env_get env "OPENAI_HOST" "azure") = Raised e) ->
  get_settings sv env st = (Raised e, st).
Proof.
  intros Hnone H. unfold get_settings. rewrite Hnone.
  unfold ibind at 1, pure_call at 1.
  destruct H as [-> | [[n ->] Hhost]]; [reflexivity|].
  unfold ibind at 1, pure_call at 1. rewrite Hhost. reflexivity.
Qed.

End Services.
End GetSettingsProps.

Module GetSettingsWitnesses.
Import PyStr Py ZipProcessor GetSettings GetSettingsProps Fixtures.

(** Services that journal their calls; [int] and [OpenAIHost] know the
    values used below. *)
Definition services : Services (list string) string unit string unit unit unit unit :=
  {| py_int := fun s =>
       if String.eqb s "3072" then Returned 3072
       else if String.eqb s "1536" then Returned 1536
       else Raised (ValueError ("invalid literal for int() with base 10: '" +:+ s +:+ "'"));
     py_lower := ascii_lowering;
     OpenAIHost := fun s =>
       if String.eqb s "azure" || String.eqb s "openai" then Returned s
       else Raised (ValueError ("'" +:+ s +:+ "' is not a valid OpenAIHost"));
     is_azure := fun h => String.eqb h "azure";
     ManagedIdentityCredential := fun client_id =>
       noted "ManagedIdentityCredential" (Returned (format_opt client_id));
     setup_openai_client := fun _ => noted "setup_openai_client" (Returned (tt, None));
     new_AdlsBlobManager := fun endpoint _ _ =>
       noted ("AdlsBlobManager " +:+ endpoint) (Returned (adls_for some_chunks EmptyString));
     build_file_processors := fun _ =>
       noted "build_file_processors"
         (Returned {[ ".md" := {| processor_name := "text" |} ]});
     setup_figure_processor := fun _ => noted "setup_figure_processor" (Returned tt);
     setup_search_info := fun _ => noted "setup_search_info" (Returned tt);
     setup_embeddings_service := fun _ => noted "setup_embeddings_service" (Returned tt);
     setup_image_embeddings_service := fun _ _ _ =>
       noted "setup_image_embeddings_service" (Returned tt);
     new_UploadUserFileStrategy := fun _ =>
       noted "UploadUserFileStrategy" (Returned (ingester_for EmptyString)) |}.

Definition fresh : State (list string) := {| outside := []; cached := None |}.

Definition good_env : environ := {[ "AZURE_USERSTORAGE_ACCOUNT" := "acct"; "USE_VECTORS" := "False" ]}.

Definition bad_env : environ := {[ "AZURE_OPENAI_EMB_DIMENSIONS" := "large" ]}.

Lemma settings_initialized_once_witness :
  exists settings st1,
    get_settings services good_env fresh = (Returned settings, st1) /\
    get_settings services bad_env st1 = (Returned settings, st1).
Proof.
  destruct (get_settings services good_env fresh) as [[settings|e] st1] eqn:H;
    [|vm_compute in H; discriminate].
  exists settings, st1. split; [reflexivity|].
  exact (settings_initialized_once services good_env bad_env fresh st1 settings H).
Defined.

Lemma failed_initialization_not_cached_witness :
  cached (get_settings services {[ "OPENAI_HOST" := "bogus" ]} fresh).2 = None.
Proof.
  destruct (get_settings services {[ "OPENAI_HOST" := "bogus" ]} fresh)
    as [[settings|e] st1] eqn:H; [vm_compute in H; discriminate|].
  exact (proj2 (failed_initialization_not_cached services _ fresh st1 e H)).
Defined.

Lemma bad_environment_raises_early_witness :
  get_settings services bad_env fresh =
    (Raised (ValueError "invalid literal for int() with base 10: 'large'"), fresh).
Proof.
  apply bad_environment_raises_early; [reflexivity|]. left. vm_compute. reflexivity.
Defined.

End GetSettingsWitnesses.
